(** * websocket_recorder: the rotating record writer

    A shallow embedding of [websocket_recorder.py] (class
    [WebsocketRecorder]) together with the Python built-ins it calls
    ([str.replace], slicing, [os.path.basename], [strftime],
    [json.dumps], file objects, [os.rename]), and the properties of the
    writer that follow from the code.

    Conventions.
    - A Python [str] is a [string]; each [ascii] is one code point below 256.
    - A Python [int] is a [Z] (unbounded).
    - A [dict] with string keys is a [gmap string _]; [json.dumps] is called
      with [sort_keys=True], so the insertion order is not observable.
    - Statements run in a state-and-exception monad: an exception leaves the
      mutations done before it in place, as in Python.
    - The wall clock is the sequence of its readings; each call of
      [datetime.now()] takes the next one.
    - A file is its path and the text written to it so far; buffering and
      failures of the file system are not modelled.
    - The logging calls do not touch the recorder and are left out. *)

From stdpp Require Import gmap strings list fin_maps sorting.
From Stdlib Require Import Ascii ZArith NArith Lia.

Local Open Scope Z_scope.

(** ** Python built-ins *)

Module Py.

Inductive exn : Type :=
| TypeError      (* wrong number or type of arguments *)
| ValueError     (* I/O operation on closed file *)
| KeyError       (* missing dict key *)
| OSError.       (* file system error *)

Inductive result (A : Type) : Type :=
| Ok (a : A)
| Raise (e : exn).
Global Arguments Ok {A} a.
Global Arguments Raise {A} e.

Definition newline : ascii := "010"%char.
Definition slash : ascii := "/"%char.

(** [s[0:n]] *)
Definition slice_to (n : nat) (s : string) : string := String.substring 0 n s.

(** [s.replace(old, new)] for a non-empty [old]: [skip] counts the
    characters of a match still to be dropped. *)
Fixpoint replace_go (old new : string) (skip : nat) (s : string) : string :=
  match s with
  | EmptyString => EmptyString
  | String c s' =>
      match skip with
      | S k => replace_go old new k s'
      | O =>
          if String.prefix old s
          then new +:+ replace_go old new (String.length old - 1) s'
          else String c (replace_go old new 0 s')
      end
  end.

(** [s.replace("", new)] puts [new] before every character and at the end. *)
Fixpoint intersperse (new s : string) : string :=
  match s with
  | EmptyString => new
  | String c s' => new +:+ String c (intersperse new s')
  end.

Definition replace (old new s : string) : string :=
  match old with
  | EmptyString => intersperse new s
  | _ => replace_go old new 0 s
  end.

(** The method call [s.replace] applied to its positional string arguments:
    [str.replace] takes [old] and [new] (a third argument is a count, which
    is not a string). *)
Definition str_replace (s : string) (args : list string) : result string :=
  match args with
  | [old; new] => Ok (replace old new s)
  | _ => Raise TypeError
  end.

(** [os.path.basename(p)]: what follows the last slash. [acc] is the
    suffix after the last slash seen so far. *)
Fixpoint basename_go (acc p : string) : string :=
  match p with
  | EmptyString => acc
  | String c p' =>
      if Ascii.eqb c slash then basename_go p' p' else basename_go acc p'
  end.

Definition os_path_basename (p : string) : string := basename_go p p.

(** [str(n)] for an [int]. *)
Definition digit (d : N) : ascii := Ascii.ascii_of_N (48 + d).

Fixpoint str_of_N_go (fuel : nat) (n : N) (acc : string) : string :=
  match fuel with
  | O => acc
  | S fuel' =>
      let acc' := String (digit (n mod 10)) acc in
      if (n <? 10)%N then acc' else str_of_N_go fuel' (n / 10) acc'
  end.

Definition str_of_N (n : N) : string :=
  str_of_N_go (S (N.to_nat (N.log2 n))) n EmptyString.

Definition str_of_int (z : Z) : string :=
  match z with
  | Z0 => "0"
  | Zpos p => str_of_N (Npos p)
  | Zneg p => String "-"%char (str_of_N (Npos p))
  end.

(** Number of occurrences of a character. *)
Fixpoint count_char (c : ascii) (s : string) : nat :=
  match s with
  | EmptyString => O
  | String d s' => (if Ascii.eqb d c then 1 else 0)%nat + count_char c s'
  end.

End Py.

(** ** datetime *)

Module Datetime.

(** A reading of [datetime.datetime.now()]. *)
Record datetime : Type := {
  year : N; month : N; day : N;
  hour : N; minute : N; second : N; microsecond : N
}.

(** The ranges of the fields of a Python [datetime]. *)
Definition valid (d : datetime) : Prop :=
  (1 <= year d <= 9999 /\ 1 <= month d <= 12 /\ 1 <= day d <= 31 /\
   hour d < 24 /\ minute d < 60 /\ second d < 60 /\ microsecond d < 1000000)%N.

(** The readings whose year is written with four digits. *)
Definition four_digit (d : datetime) : Prop := valid d /\ (1000 <= year d)%N.

Fixpoint zeros (n : nat) : string :=
  match n with
  | O => EmptyString
  | S n' => String "0"%char (zeros n')
  end.

(** A number in decimal, padded with zeros on the left to [width]. *)
Definition zfill (width : nat) (n : N) : string :=
  let s := Py.str_of_N n in
  zeros (width - String.length s) +:+ s.

Definition percent : ascii := "%"%char.

(** One directive of a [strftime] format. [%Y] is the year in decimal as
    the C library renders it, without padding: four digits from year 1000
    on, fewer before. The other fields are padded with zeros. *)
Definition directive (c : ascii) (d : datetime) : string :=
  if Ascii.eqb c "Y" then Py.str_of_N (year d)
  else if Ascii.eqb c "m" then zfill 2 (month d)
  else if Ascii.eqb c "d" then zfill 2 (day d)
  else if Ascii.eqb c "H" then zfill 2 (hour d)
  else if Ascii.eqb c "M" then zfill 2 (minute d)
  else if Ascii.eqb c "S" then zfill 2 (second d)
  else if Ascii.eqb c "f" then zfill 6 (microsecond d)
  else if Ascii.eqb c percent then String percent EmptyString
  else String percent (String c EmptyString).

(** [d.strftime(fmt)] for the directives above; every other character of
    the format is copied. *)
Fixpoint strftime (fmt : string) (d : datetime) : string :=
  match fmt with
  | EmptyString => EmptyString
  | String c rest =>
      if Ascii.eqb c percent then
        match rest with
        | String k rest' => directive k d +:+ strftime rest' d
        | EmptyString => String c EmptyString
        end
      else String c (strftime rest d)
  end.

End Datetime.

(** ** json.dumps *)

Module Json.

(** The values [json.dumps] serialises here: [None], [bool], [int], [str],
    [list], and [dict] with string keys (in insertion order, keys distinct). *)
#[warnings="-register-all"]
Inductive value : Type :=
| Null
| Bool (b : bool)
| Int (z : Z)
| Str (s : string)
| List (l : list value)
| Dict (d : list (string * value)).

Definition dquote : ascii := "034"%char.
Definition backslash : ascii := "092"%char.

Definition hex_digit (n : N) : ascii :=
  if (n <? 10)%N then Ascii.ascii_of_N (48 + n) else Ascii.ascii_of_N (87 + n).

(** The replacement of one character by [ESCAPE_ASCII]: printable ASCII
    other than the quote and the backslash is kept, the rest is escaped. *)
Definition escape_char (c : ascii) : string :=
  let n := Ascii.N_of_ascii c in
  if Ascii.eqb c dquote then String backslash (String dquote EmptyString)
  else if Ascii.eqb c backslash then String backslash (String backslash EmptyString)
  else if (n =? 10)%N then String backslash "n"
  else if (n =? 13)%N then String backslash "r"
  else if (n =? 9)%N then String backslash "t"
  else if (n =? 12)%N then String backslash "f"
  else if (n =? 8)%N then String backslash "b"
  else if ((32 <=? n) && (n <=? 126))%N then String c EmptyString
  else String backslash
         (String "u" (String "0" (String "0"
            (String (hex_digit (n / 16)) (String (hex_digit (n mod 16)) EmptyString))))).

Fixpoint escape (s : string) : string :=
  match s with
  | EmptyString => EmptyString
  | String c s' => escape_char c +:+ escape s'
  end.

(** [encode_basestring_ascii] *)
Definition encode_str (s : string) : string :=
  String dquote (escape s +:+ String dquote EmptyString).

(** [sorted(items)] on items with distinct keys: by key. *)
Fixpoint insert_item {A : Type} (x : string * A) (l : list (string * A))
  : list (string * A) :=
  match l with
  | [] => [x]
  | y :: l' =>
      if String.leb (fst x) (fst y) then x :: l else y :: insert_item x l'
  end.

Definition sort_items {A : Type} (l : list (string * A)) : list (string * A) :=
  foldr insert_item [] l.

Definition item (kv : string * string) : string :=
  encode_str (fst kv) +:+ ": " +:+ snd kv.

(** [json.dumps(v, sort_keys=True)], with the default separators. The
    values of a dict are serialised before the items are sorted. *)
Fixpoint dumps (v : value) : string :=
  match v with
  | Null => "null"
  | Bool true => "true"
  | Bool false => "false"
  | Int z => Py.str_of_int z
  | Str s => encode_str s
  | List l => "[" +:+ String.concat ", " (map dumps l) +:+ "]"
  | Dict d =>
      "{" +:+ String.concat ", "
                (map item (sort_items (map (fun kv => (fst kv, dumps (snd kv))) d)))
          +:+ "}"
  end.

(** [json.dumps(d, sort_keys=True)] for a dict held as a finite map. *)
Definition dumps_dict (d : gmap string value) : string :=
  dumps (Dict (map_to_list d)).

End Json.

(** ** The recorder *)

(** A Python file object: its [name] and its [closed] flag. The content
    lives on the disk, under the name the file was opened with. *)
Module File.
Record file : Type := { name : string; closed : bool }.
End File.

(** The attributes of a [WebsocketRecorder] object. *)
Record WebsocketRecorder : Type := {
  url : string;
  initial_msg_out : list string;
  data_file_lines : Z;
  lines_counter : Z;
  ws_name : string;
  hostname : string;
  data_dir : string;
  data_file : File.file;
  msg_seq_no : Z;
  full_message : gmap string Json.value
}.

(** The object together with what it acts on: the files by path, the number
    of clock readings taken so far, and the messages sent on the socket. *)
Record state : Type := {
  self : WebsocketRecorder;
  disk : gmap string string;
  ticks : nat;
  outbox : list string
}.

(** Statements: a state transformer that returns a value or raises. *)
Definition M (A : Type) : Type := state -> Py.result A * state.

Definition ret {A : Type} (a : A) : M A := fun s => (Py.Ok a, s).

Definition raise {A : Type} (e : Py.exn) : M A := fun s => (Py.Raise e, s).

Definition bind {A B : Type} (m : M A) (k : A -> M B) : M B :=
  fun s =>
    match m s with
    | (Py.Ok a, s') => k a s'
    | (Py.Raise e, s') => (Py.Raise e, s')
    end.

Notation "x <- m ;; k" := (bind m (fun x => k))
  (at level 20, m at level 99, k at level 200, only parsing).
Notation "m ;; k" := (bind m (fun _ => k))
  (at level 100, k at level 200, right associativity, only parsing).

Definition lift {A : Type} (r : Py.result A) : M A := fun s => (r, s).

Definition get_self : M WebsocketRecorder := fun s => (Py.Ok (self s), s).

(** Attribute assignment [self.x = v]. *)
Definition assign (f : WebsocketRecorder -> WebsocketRecorder) : M unit :=
  fun s => (Py.Ok tt,
            {| self := f (self s); disk := disk s; ticks := ticks s; outbox := outbox s |}).

Definition set_url (v : string) (o : WebsocketRecorder) : WebsocketRecorder :=
  {| url := v; initial_msg_out := initial_msg_out o; data_file_lines := data_file_lines o;
     lines_counter := lines_counter o; ws_name := ws_name o; hostname := hostname o;
     data_dir := data_dir o; data_file := data_file o; msg_seq_no := msg_seq_no o;
     full_message := full_message o |}.
Definition set_initial_msg_out (v : list string) (o : WebsocketRecorder) : WebsocketRecorder :=
  {| url := url o; initial_msg_out := v; data_file_lines := data_file_lines o;
     lines_counter := lines_counter o; ws_name := ws_name o; hostname := hostname o;
     data_dir := data_dir o; data_file := data_file o; msg_seq_no := msg_seq_no o;
     full_message := full_message o |}.
Definition set_data_file_lines (v : Z) (o : WebsocketRecorder) : WebsocketRecorder :=
  {| url := url o; initial_msg_out := initial_msg_out o; data_file_lines := v;
     lines_counter := lines_counter o; ws_name := ws_name o; hostname := hostname o;
     data_dir := data_dir o; data_file := data_file o; msg_seq_no := msg_seq_no o;
     full_message := full_message o |}.
Definition set_lines_counter (v : Z) (o : WebsocketRecorder) : WebsocketRecorder :=
  {| url := url o; initial_msg_out := initial_msg_out o; data_file_lines := data_file_lines o;
     lines_counter := v; ws_name := ws_name o; hostname := hostname o;
     data_dir := data_dir o; data_file := data_file o; msg_seq_no := msg_seq_no o;
     full_message := full_message o |}.
Definition set_ws_name (v : string) (o : WebsocketRecorder) : WebsocketRecorder :=
  {| url := url o; initial_msg_out := initial_msg_out o; data_file_lines := data_file_lines o;
     lines_counter := lines_counter o; ws_name := v; hostname := hostname o;
     data_dir := data_dir o; data_file := data_file o; msg_seq_no := msg_seq_no o;
     full_message := full_message o |}.
Definition set_hostname (v : string) (o : WebsocketRecorder) : WebsocketRecorder :=
  {| url := url o; initial_msg_out := initial_msg_out o; data_file_lines := data_file_lines o;
     lines_counter := lines_counter o; ws_name := ws_name o; hostname := v;
     data_dir := data_dir o; data_file := data_file o; msg_seq_no := msg_seq_no o;
     full_message := full_message o |}.
Definition set_data_dir (v : string) (o : WebsocketRecorder) : WebsocketRecorder :=
  {| url := url o; initial_msg_out := initial_msg_out o; data_file_lines := data_file_lines o;
     lines_counter := lines_counter o; ws_name := ws_name o; hostname := hostname o;
     data_dir := v; data_file := data_file o; msg_seq_no := msg_seq_no o;
     full_message := full_message o |}.
Definition set_data_file (v : File.file) (o : WebsocketRecorder) : WebsocketRecorder :=
  {| url := url o; initial_msg_out := initial_msg_out o; data_file_lines := data_file_lines o;
     lines_counter := lines_counter o; ws_name := ws_name o; hostname := hostname o;
     data_dir := data_dir o; data_file := v; msg_seq_no := msg_seq_no o;
     full_message := full_message o |}.
Definition set_msg_seq_no (v : Z) (o : WebsocketRecorder) : WebsocketRecorder :=
  {| url := url o; initial_msg_out := initial_msg_out o; data_file_lines := data_file_lines o;
     lines_counter := lines_counter o; ws_name := ws_name o; hostname := hostname o;
     data_dir := data_dir o; data_file := data_file o; msg_seq_no := v;
     full_message := full_message o |}.
Definition set_full_message (v : gmap string Json.value) (o : WebsocketRecorder)
  : WebsocketRecorder :=
  {| url := url o; initial_msg_out := initial_msg_out o; data_file_lines := data_file_lines o;
     lines_counter := lines_counter o; ws_name := ws_name o; hostname := hostname o;
     data_dir := data_dir o; data_file := data_file o; msg_seq_no := msg_seq_no o;
     full_message := v |}.

(** [self.full_message[key] = v] *)
Definition full_message_setitem (key : string) (v : Json.value) : M unit :=
  o <- get_self ;;
  assign (set_full_message (<[key := v]> (full_message o))).

(** [self.full_message[key]], read as a [str]. *)
Definition full_message_getitem_str (key : string) : M string :=
  o <- get_self ;;
  match full_message o !! key with
  | Some (Json.Str s) => ret s
  | Some _ => raise Py.TypeError
  | None => raise Py.KeyError
  end.

(** [open(path, "a")]: the file is created empty when it is not there, and
    left as it is otherwise. The disk is a flat name space that never fails. *)
Definition open_append (path : string) : M File.file :=
  fun s =>
    (Py.Ok {| File.name := path; File.closed := false |},
     {| self := self s;
        disk := match disk s !! path with
                | Some _ => disk s
                | None => <[path := EmptyString]> (disk s)
                end;
        ticks := ticks s; outbox := outbox s |}).

(** [self.data_file.write(data)] *)
Definition data_file_write (data : string) : M unit :=
  fun s =>
    let f := data_file (self s) in
    if File.closed f then (Py.Raise Py.ValueError, s)
    else (Py.Ok tt,
          {| self := self s;
             disk := <[File.name f := default EmptyString (disk s !! File.name f) +:+ data]>
                       (disk s);
             ticks := ticks s; outbox := outbox s |}).

(** [self.data_file.close()]; closing a closed file does nothing. *)
Definition data_file_close : M unit :=
  o <- get_self ;;
  assign (set_data_file {| File.name := File.name (data_file o); File.closed := true |}).

(** [os.rename(src, dst)] *)
Definition os_rename (src dst : string) : M unit :=
  fun s =>
    match disk s !! src with
    | Some content =>
        (Py.Ok tt,
         {| self := self s; disk := <[dst := content]> (delete src (disk s));
            ticks := ticks s; outbox := outbox s |})
    | None => (Py.Raise Py.OSError, s)
    end.

(** [self.send(message)], of the client base class. *)
Definition send (message : string) : M unit :=
  fun s => (Py.Ok tt,
            {| self := self s; disk := disk s; ticks := ticks s;
               outbox := outbox s ++ [message] |}).

Fixpoint for_each {A : Type} (l : list A) (body : A -> M unit) : M unit :=
  match l with
  | [] => ret tt
  | x :: l' => body x ;; for_each l' body
  end.

Section Recorder.

(** The wall clock, as the sequence of its successive readings, and the
    process id. *)
Variable clock : nat -> Datetime.datetime.
Variable getpid : Z.

(** [datetime.datetime.now()] *)
Definition datetime_now : M Datetime.datetime :=
  fun s => (Py.Ok (clock (ticks s)),
            {| self := self s; disk := disk s; ticks := S (ticks s); outbox := outbox s |}).

Definition get_msg_seq_no : M Z :=
  o <- get_self ;;
  assign (set_msg_seq_no (msg_seq_no o + 1)) ;;
  o <- get_self ;;
  ret (msg_seq_no o).

Definition generate_filename : M string :=
  now <- datetime_now ;;
  let date_part := Datetime.strftime "%Y-%m-%d" now in
  o <- get_self ;;
  let filename :=
    data_dir o +:+ "/" +:+ date_part +:+ "_" +:+ ws_name o +:+ "_" +:+ hostname o
      +:+ ".json.open" in
  ret filename.

(** An object none of whose attributes is assigned yet; [__init__] assigns
    every one of them before it is read. *)
Definition unassigned : WebsocketRecorder :=
  {| url := EmptyString; initial_msg_out := []; data_file_lines := 0; lines_counter := 0;
     ws_name := EmptyString; hostname := EmptyString; data_dir := EmptyString;
     data_file := {| File.name := EmptyString; File.closed := true |};
     msg_seq_no := 0; full_message := ∅ |}.

(** The base-class constructor opens no file and sends nothing. *)
Definition __init__ (data_dir_ url_ : string) (initial_msg_out_ : list string)
    (data_file_lines_ : Z) (hostname_ ws_name_ : string) (hb_seconds : Z)
    (extra_data : gmap string Json.value) : M unit :=
  assign (set_url url_) ;;
  assign (set_initial_msg_out initial_msg_out_) ;;
  assign (set_data_file_lines data_file_lines_) ;;
  assign (set_lines_counter 0) ;;
  assign (set_ws_name ws_name_) ;;
  assign (set_hostname hostname_) ;;
  assign (set_data_dir data_dir_) ;;
  filename <- generate_filename ;;
  f <- open_append filename ;;
  assign (set_data_file f) ;;
  assign (set_msg_seq_no 0) ;;
  o <- get_self ;;
  now <- datetime_now ;;
  assign (set_full_message
            (<["msg_seq_no" := Json.Null]>
            (<["url" := Json.Str (url o)]>
            (<["machine_id" := Json.Str (hostname o)]>
            (<["pid" := Json.Str (Py.str_of_int getpid)]>
            (<["ws_name" := Json.Str (ws_name o)]>
            (<["session_start" :=
                 Json.Str (Datetime.strftime "%Y-%m-%d %H:%M:%S.%f UTC" now)]>
            (<["ts_utc" := Json.Null]>
            (<["websocket_msg" := Json.Null]> ∅))))))))) ;;
  (if decide (0 < size extra_data)%nat
   then o <- get_self ;; assign (set_full_message (extra_data ∪ full_message o))
   else ret tt).

Definition opened : M unit :=
  o <- get_self ;;
  if decide (0 < length (initial_msg_out o))%nat
  then for_each (initial_msg_out o) send
  else ret tt.

Definition closed (code : Z) (reason : string) : M unit :=
  data_file_close.

Definition received_message (websocket_msg : string) : M unit :=
  n <- get_msg_seq_no ;;
  full_message_setitem "msg_seq_no" (Json.Int n) ;;
  now <- datetime_now ;;
  full_message_setitem "ts_utc"
    (Json.Str (Datetime.strftime "%Y-%m-%d %H:%M:%S.%f UTC" now)) ;;
  payload <- lift (Py.str_replace websocket_msg [String Py.newline EmptyString; EmptyString]) ;;
  full_message_setitem "websocket_msg" (Json.Str payload) ;;
  ts_utc <- full_message_getitem_str "ts_utc" ;;
  o <- get_self ;;
  if decide (Py.slice_to 10 ts_utc
             = Py.slice_to 10 (Py.os_path_basename (File.name (data_file o))))
  then
    o <- get_self ;;
    data_file_write (Json.dumps_dict (full_message o) +:+ String Py.newline EmptyString)
  else
    o <- get_self ;;
    let current_path := File.name (data_file o) in
    data_file_close ;;
    new_path <- lift (Py.str_replace current_path [".open"]) ;;
    os_rename current_path new_path ;;
    filename <- generate_filename ;;
    f <- open_append filename ;;
    assign (set_data_file f) ;;
    o <- get_self ;;
    data_file_write (Json.dumps_dict (full_message o) +:+ String Py.newline EmptyString).

(** The client's receive loop hands each text message to
    [received_message]; an exception that leaves it ends the loop. *)
Definition deliver (msgs : list string) : M unit :=
  for_each msgs received_message.

(** The state a recorder is constructed in: an object yet to be
    initialised, the files present, the clock readings already taken. *)
Definition boot (disk0 : gmap string string) (t0 : nat) : state :=
  {| self := unassigned; disk := disk0; ticks := t0; outbox := [] |}.

End Recorder.

(** ** Character classes *)

Definition is_digit (c : ascii) : bool :=
  let n := Ascii.N_of_ascii c in ((48 <=? n) && (n <=? 57))%N.

Fixpoint all_chars (P : ascii -> bool) (s : string) : bool :=
  match s with
  | EmptyString => true
  | String c s' => P c && all_chars P s'
  end.

(** ** One receive cycle, in closed form *)

(** The payload as recorded: the text without its newline characters. *)
Fixpoint remove_char (c : ascii) (s : string) : string :=
  match s with
  | EmptyString => EmptyString
  | String d s' => if Ascii.eqb d c then remove_char c s' else String d (remove_char c s')
  end.

Definition ts_format : string := "%Y-%m-%d %H:%M:%S.%f UTC".

(** The object once the three per-record items are assigned (the first
    three statements of [received_message]). *)
Definition stamped (clock : nat -> Datetime.datetime) (websocket_msg : string) (s : state)
  : WebsocketRecorder :=
  set_full_message
    (<["websocket_msg" := Json.Str (Py.replace (String Py.newline EmptyString) EmptyString websocket_msg)]>
    (<["ts_utc" := Json.Str (Datetime.strftime ts_format (clock (ticks s)))]>
    (<["msg_seq_no" := Json.Int (msg_seq_no (self s) + 1)]> (full_message (self s)))))
    (set_msg_seq_no (msg_seq_no (self s) + 1) (self s)).

(** The line written for a record. *)
Definition line_of (d : gmap string Json.value) : string :=
  Json.dumps_dict d +:+ String Py.newline EmptyString.

(** The test of the rotation decision. *)
Definition same_day (clock : nat -> Datetime.datetime) (s : state) : Prop :=
  Py.slice_to 10 (Datetime.strftime ts_format (clock (ticks s)))
  = Py.slice_to 10 (Py.os_path_basename (File.name (data_file (self s)))).

#[global] Instance same_day_dec (clock : nat -> Datetime.datetime) (s : state)
  : Decision (same_day clock s) :=
  decide (Py.slice_to 10 (Datetime.strftime ts_format (clock (ticks s)))
          = Py.slice_to 10 (Py.os_path_basename (File.name (data_file (self s))))).

Definition close_file (f : File.file) : File.file :=
  {| File.name := File.name f; File.closed := true |}.

(** ** Sessions *)

(** A record: a template with the three per-record items set. *)
Definition record (template : gmap string Json.value) (n : Z) (ts payload : string)
  : gmap string Json.value :=
  <["websocket_msg" := Json.Str payload]>
    (<["ts_utc" := Json.Str ts]> (<["msg_seq_no" := Json.Int n]> template)).

(** The records a run of [deliver] writes: the dict serialised by each call
    of [received_message] that returns. *)
Fixpoint records (clock : nat -> Datetime.datetime) (msgs : list string) (s : state)
  : list (gmap string Json.value) :=
  match msgs with
  | [] => []
  | m :: msgs' =>
      match received_message clock m s with
      | (Py.Ok _, s') => full_message (self s') :: records clock msgs' s'
      | (Py.Raise _, _) => []
      end
  end.

(** The template [__init__] builds before the extra data is merged in. *)
Definition builtin_fields (url_ hostname_ ws_name_ : string) (pid : Z) (session_start : string)
  : gmap string Json.value :=
  <["msg_seq_no" := Json.Null]>
  (<["url" := Json.Str url_]>
  (<["machine_id" := Json.Str hostname_]>
  (<["pid" := Json.Str (Py.str_of_int pid)]>
  (<["ws_name" := Json.Str ws_name_]>
  (<["session_start" := Json.Str session_start]>
  (<["ts_utc" := Json.Null]>
  (<["websocket_msg" := Json.Null]> ∅))))))).

(** The path [generate_filename] returns for a clock reading. *)
Definition filename_for (data_dir_ ws_name_ hostname_ : string) (now : Datetime.datetime)
  : string :=
  data_dir_ +:+ "/" +:+ Datetime.strftime "%Y-%m-%d" now +:+ "_" +:+ ws_name_ +:+ "_"
    +:+ hostname_ +:+ ".json.open".

(** [open(path, "a")] on the disk. *)
Definition touch (path : string) (d : gmap string string) : gmap string string :=
  match d !! path with
  | Some _ => d
  | None => <[path := EmptyString]> d
  end.

(** A recorder in use: its file is open and on the disk. *)
Definition live (s : state) : Prop :=
  File.closed (data_file (self s)) = false /\
  is_Some (disk s !! File.name (data_file (self s))).

(** The content of the recorder's current file. *)
Definition content (s : state) : string :=
  default EmptyString (disk s !! File.name (data_file (self s))).

Fixpoint concat_lines (l : list string) : string :=
  match l with
  | [] => EmptyString
  | x :: l' => x +:+ concat_lines l'
  end.

(** ** The scenarios of the specification *)

Definition reading (y m d h mi s us : N) : Datetime.datetime :=
  {| Datetime.year := y; Datetime.month := m; Datetime.day := d; Datetime.hour := h;
     Datetime.minute := mi; Datetime.second := s; Datetime.microsecond := us |}.

(** Every reading falls on 2024-01-01. *)
Definition clock_one_day (n : nat) : Datetime.datetime :=
  reading 2024 1 1 10 0 0 (N.of_nat n).

(** The first four readings (construction twice, two events) fall on
    2024-01-01, the later ones on 2024-01-02. *)
Definition clock_two_days (n : nat) : Datetime.datetime :=
  if decide (n < 4)%nat then reading 2024 1 1 23 59 59 (N.of_nat n)
  else reading 2024 1 2 0 0 0 (N.of_nat n).

(** A recorder for [feedA] on [hostX] writing under [/tmp/rec], on an empty
    disk, with process id 4242. *)
Abbreviation scenario clock data_file_lines_ extra_data :=
  (snd (__init__ clock 4242 "/tmp/rec" "wss://feed.example/ws" ["subscribe"]
          data_file_lines_ "hostX" "feedA" 30 extra_data (boot ∅ 0)))
  (only parsing).

Definition three_events : list string :=
  ["a"; "b" +:+ String Py.newline EmptyString; "c"].

(** [s.endswith(suffix)] *)
Fixpoint ends_with (suffix s : string) : bool :=
  if decide (s = suffix) then true
  else match s with
       | EmptyString => false
       | String _ s' => ends_with suffix s'
       end.

(** The attributes a call never assigns. *)
Definition same_config (o o' : WebsocketRecorder) : Prop :=
  url o' = url o /\ initial_msg_out o' = initial_msg_out o /\
  data_file_lines o' = data_file_lines o /\ lines_counter o' = lines_counter o /\
  ws_name o' = ws_name o /\ hostname o' = hostname o /\ data_dir o' = data_dir o.

Global Arguments Datetime.strftime : simpl never.
Global Arguments Datetime.zfill : simpl never.
Global Arguments Py.replace : simpl never.
Global Arguments Py.slice_to : simpl never.
Global Arguments Py.os_path_basename : simpl never.
Global Arguments Py.str_of_int : simpl never.
Global Arguments Json.dumps : simpl never.
Global Arguments Json.dumps_dict : simpl never.
Global Arguments stamped : simpl never.
Global Arguments record : simpl never.
Global Arguments line_of : simpl never.
Global Arguments content : simpl never.
Global Arguments filename_for : simpl never.
Global Arguments builtin_fields : simpl never.
Global Arguments touch : simpl never.

(** The same state with another value of [data_file_lines]. *)
Definition with_data_file_lines (v : Z) (s : state) : state :=
  {| self := set_data_file_lines v (self s); disk := disk s; ticks := ticks s;
     outbox := outbox s |}.

(** The number a string of decimal digits denotes, most significant first. *)
Definition digit_val (c : ascii) : N := (Ascii.N_of_ascii c - 48)%N.

Fixpoint digits_value (acc : N) (s : string) : N :=
  match s with
  | EmptyString => acc
  | String c s' => digits_value (acc * 10 + digit_val c)%N s'
  end.

(** ** json.loads *)

(** The decoder, for the documents this model can hold: a number with a
    fraction or an exponent, and an escape above code point 255, are outside
    it and decode to [None], as does a document that [json.loads] refuses.
    The recursion is bounded by [fuel]; [loads] gives the length of the
    document, which is enough for every serialised value. *)
Module Decoder.

Definition is_ws (c : ascii) : bool :=
  let n := Ascii.N_of_ascii c in
  ((n =? 32) || (n =? 9) || (n =? 10) || (n =? 13))%N.

Fixpoint skip_ws (s : string) : string :=
  match s with
  | EmptyString => s
  | String c s' => if is_ws c then skip_ws s' else s
  end.

Fixpoint scan_digits (acc : N) (s : string) : N * string :=
  match s with
  | EmptyString => (acc, s)
  | String c s' =>
      if is_digit c then scan_digits (acc * 10 + digit_val c)%N s' else (acc, s)
  end.

(** The integer part of [NUMBER_RE]: a zero, or a non-zero digit and the
    digits after it. *)
Definition scan_int (s : string) : option (N * string) :=
  match s with
  | EmptyString => None
  | String c s' =>
      if Ascii.eqb c "0" then Some (0%N, s')
      else if is_digit c then Some (scan_digits 0 s)
      else None
  end.

(** What follows the integer part starts a fraction or an exponent. *)
Definition float_tail (s : string) : bool :=
  match s with
  | EmptyString => false
  | String c _ => Ascii.eqb c "." || Ascii.eqb c "e" || Ascii.eqb c "E"
  end.

Definition scan_number (s : string) : option (Z * string) :=
  let (negative, s1) :=
    match s with
    | String c s' => if Ascii.eqb c "-" then (true, s') else (false, s)
    | EmptyString => (false, s)
    end in
  match scan_int s1 with
  | Some (n, rest) =>
      if float_tail rest then None
      else Some (if negative then - Z.of_N n else Z.of_N n, rest)
  | None => None
  end.

Definition hex_val (c : ascii) : option N :=
  let n := Ascii.N_of_ascii c in
  if ((48 <=? n) && (n <=? 57))%N then Some (n - 48)%N
  else if ((97 <=? n) && (n <=? 102))%N then Some (n - 87)%N
  else if ((65 <=? n) && (n <=? 70))%N then Some (n - 55)%N
  else None.

(** The character a backslash escape stands for ([BACKSLASH]). *)
Definition unescape (c : ascii) : option ascii :=
  if Ascii.eqb c Json.dquote then Some Json.dquote
  else if Ascii.eqb c Json.backslash then Some Json.backslash
  else if Ascii.eqb c "/" then Some "/"%char
  else if Ascii.eqb c "b" then Some (Ascii.ascii_of_N 8)
  else if Ascii.eqb c "f" then Some (Ascii.ascii_of_N 12)
  else if Ascii.eqb c "n" then Some (Ascii.ascii_of_N 10)
  else if Ascii.eqb c "r" then Some (Ascii.ascii_of_N 13)
  else if Ascii.eqb c "t" then Some (Ascii.ascii_of_N 9)
  else None.

Definition cons_char (c : ascii) (r : option (string * string)) : option (string * string) :=
  match r with
  | Some (s, rest) => Some (String c s, rest)
  | None => None
  end.

(** [scanstring], strict, from the character after the opening quote: the
    decoded string and what follows the closing quote. *)
Fixpoint scan_string (s : string) : option (string * string) :=
  match s with
  | EmptyString => None
  | String c s' =>
      if Ascii.eqb c Json.dquote then Some (EmptyString, s')
      else if Ascii.eqb c Json.backslash then
        match s' with
        | EmptyString => None
        | String e s'' =>
            if Ascii.eqb e "u" then
              match s'' with
              | String h1 (String h2 (String h3 (String h4 s3))) =>
                  match hex_val h1, hex_val h2, hex_val h3, hex_val h4 with
                  | Some a, Some b, Some c', Some d =>
                      let n := (((a * 16 + b) * 16 + c') * 16 + d)%N in
                      if (n <? 256)%N then cons_char (Ascii.ascii_of_N n) (scan_string s3)
                      else None
                  | _, _, _, _ => None
                  end
              | _ => None
              end
            else
              match unescape e with
              | Some ch => cons_char ch (scan_string s'')
              | None => None
              end
        end
      else if (Ascii.N_of_ascii c <? 32)%N then None
      else cons_char c (scan_string s')
  end.

(** [dict(pairs)]: a repeated key keeps its place and takes the last value. *)
Fixpoint dict_set (k : string) (v : Json.value) (d : list (string * Json.value))
  : list (string * Json.value) :=
  match d with
  | [] => [(k, v)]
  | kv :: d' => if decide (k = fst kv) then (k, v) :: d' else kv :: dict_set k v d'
  end.

Definition dict_of_pairs (pairs : list (string * Json.value)) : list (string * Json.value) :=
  fold_left (fun d kv => dict_set (fst kv) (snd kv) d) pairs [].

Fixpoint drop_prefix (p s : string) : option string :=
  match p with
  | EmptyString => Some s
  | String a p' =>
      match s with
      | EmptyString => None
      | String b s' => if Ascii.eqb a b then drop_prefix p' s' else None
      end
  end.

(** The rest of a literal ([null], [true], [false]) after its first letter. *)
Definition literal (tail : string) (v : Json.value) (s : string)
  : option (Json.value * string) :=
  match drop_prefix tail s with
  | Some rest => Some (v, rest)
  | None => None
  end.

(** [scan_once], [JSONArray] after the bracket and the white space, and
    [JSONObject] after the brace and the white space. *)
Fixpoint scan_once (fuel : nat) (s : string) : option (Json.value * string) :=
  match fuel with
  | O => None
  | S fuel' =>
      match s with
      | EmptyString => None
      | String c s' =>
          if Ascii.eqb c Json.dquote then
            match scan_string s' with
            | Some (str, rest) => Some (Json.Str str, rest)
            | None => None
            end
          else if Ascii.eqb c "{" then
            match skip_ws s' with
            | EmptyString => None
            | String c1 s2 =>
                if Ascii.eqb c1 "}" then Some (Json.Dict [], s2)
                else
                  match scan_members fuel' (String c1 s2) with
                  | Some (pairs, rest) => Some (Json.Dict (dict_of_pairs pairs), rest)
                  | None => None
                  end
            end
          else if Ascii.eqb c "[" then
            match skip_ws s' with
            | EmptyString => None
            | String c1 s2 =>
                if Ascii.eqb c1 "]" then Some (Json.List [], s2)
                else
                  match scan_items fuel' (String c1 s2) with
                  | Some (vs, rest) => Some (Json.List vs, rest)
                  | None => None
                  end
            end
          else if Ascii.eqb c "n" then literal "ull" Json.Null s'
          else if Ascii.eqb c "t" then literal "rue" (Json.Bool true) s'
          else if Ascii.eqb c "f" then literal "alse" (Json.Bool false) s'
          else
            match scan_number s with
            | Some (z, rest) => Some (Json.Int z, rest)
            | None => None
            end
      end
  end
with scan_items (fuel : nat) (s : string) : option (list Json.value * string) :=
  match fuel with
  | O => None
  | S fuel' =>
      match scan_once fuel' s with
      | None => None
      | Some (v, rest) =>
          match skip_ws rest with
          | EmptyString => None
          | String c r =>
              if Ascii.eqb c "]" then Some ([v], r)
              else if Ascii.eqb c "," then
                match scan_items fuel' (skip_ws r) with
                | Some (vs, r') => Some (v :: vs, r')
                | None => None
                end
              else None
          end
      end
  end
with scan_members (fuel : nat) (s : string)
  : option (list (string * Json.value) * string) :=
  match fuel with
  | O => None
  | S fuel' =>
      match s with
      | EmptyString => None
      | String c s' =>
          if Ascii.eqb c Json.dquote then
            match scan_string s' with
            | None => None
            | Some (key, r1) =>
                match skip_ws r1 with
                | EmptyString => None
                | String c1 r2 =>
                    if Ascii.eqb c1 ":" then
                      match scan_once fuel' (skip_ws r2) with
                      | None => None
                      | Some (v, r3) =>
                          match skip_ws r3 with
                          | EmptyString => None
                          | String c2 r4 =>
                              if Ascii.eqb c2 "}" then Some ([(key, v)], r4)
                              else if Ascii.eqb c2 "," then
                                match scan_members fuel' (skip_ws r4) with
                                | Some (pairs, r5) => Some ((key, v) :: pairs, r5)
                                | None => None
                                end
                              else None
                          end
                      end
                    else None
                end
            end
          else None
      end
  end.

(** [json.loads(s)] *)
Definition loads (s : string) : option Json.value :=
  match scan_once (String.length s) (skip_ws s) with
  | Some (v, rest) =>
      match skip_ws rest with
      | EmptyString => Some v
      | String _ _ => None
      end
  | None => None
  end.

End Decoder.

(** A value as [json.loads] gives it back: every dict in key order. *)
Fixpoint canonical (v : Json.value) : Json.value :=
  match v with
  | Json.List l => Json.List (map canonical l)
  | Json.Dict d =>
      Json.Dict (Json.sort_items (map (fun kv => (fst kv, canonical (snd kv))) d))
  | _ => v
  end.

(** The values a Python program can build: the keys of a dict are distinct. *)
#[warnings="-register-all"]
Inductive well_formed : Json.value -> Prop :=
| wf_null : well_formed Json.Null
| wf_bool b : well_formed (Json.Bool b)
| wf_int z : well_formed (Json.Int z)
| wf_str s : well_formed (Json.Str s)
| wf_list l : Forall well_formed l -> well_formed (Json.List l)
| wf_dict d :
    NoDup (map fst d) -> Forall (fun kv => well_formed (snd kv)) d ->
    well_formed (Json.Dict d).

(** The fuel that decodes the serialisation of a value. *)
Fixpoint cost (v : Json.value) : nat :=
  match v with
  | Json.List l => S (foldr (fun x n => S (cost x + n)) O l)
  | Json.Dict d => S (foldr (fun kv n => S (cost (snd kv) + n)) O d)
  | _ => 1
  end.

(** What may follow a value in a document: not a character that would
    extend a number. *)
Definition delimited (rest : string) : Prop :=
  match rest with
  | EmptyString => True
  | String c _ => is_digit c = false /\ Decoder.float_tail rest = false
  end.


(** A value whose serialisation, followed by anything that delimits it,
    decodes to the value in canonical form with any fuel from [cost] on. *)
Definition decodes (v : Json.value) : Prop :=
  forall fuel rest, (cost v <= fuel)%nat -> delimited rest ->
    Decoder.scan_once fuel (Json.dumps v +:+ rest) = Some (canonical v, rest).

Definition items_cost (l : list Json.value) : nat :=
  foldr (fun x n => S (cost x + n)) O l.

Definition members_cost (d : list (string * Json.value)) : nat :=
  foldr (fun kv n => S (cost (snd kv) + n)) O d.

Definition dumps_item (kv : string * Json.value) : string * string :=
  (fst kv, Json.dumps (snd kv)).

Definition canonical_item (kv : string * Json.value) : string * Json.value :=
  (fst kv, canonical (snd kv)).

(** Two readings on the same calendar date. *)
Definition same_date (d1 d2 : Datetime.datetime) : Prop :=
  Datetime.year d1 = Datetime.year d2 /\ Datetime.month d1 = Datetime.month d2 /\
  Datetime.day d1 = Datetime.day d2.

(** The lines of a text, without their terminators, as reading the file
    line by line gives them; a last line without a terminator is kept. *)
Fixpoint split_lines (s : string) : list string :=
  match s with
  | EmptyString => []
  | String c s' =>
      if Ascii.eqb c Py.newline then EmptyString :: split_lines s'
      else match split_lines s' with
           | [] => [String c EmptyString]
           | l :: ls => String c l :: ls
           end
  end.

(** [d[key]] on a decoded dict, [None] when the key is missing or the value
    is not a dict. *)
Fixpoint assoc (key : string) (d : list (string * Json.value)) : option Json.value :=
  match d with
  | [] => None
  | kv :: d' => if decide (fst kv = key) then Some (snd kv) else assoc key d'
  end.

Definition dict_get (key : string) (v : Json.value) : option Json.value :=
  match v with
  | Json.Dict d => assoc key d
  | _ => None
  end.

(** The printable ASCII characters, space to tilde. *)
Definition is_printable (c : ascii) : bool :=
  let n := Ascii.N_of_ascii c in ((32 <=? n) && (n <=? 126))%N.

(** [d2] holds every file of [d1], each with its content in [d1] at the
    start of its content. *)
Definition extends (d1 d2 : gmap string string) : Prop :=
  forall p old, d1 !! p = Some old -> exists suffix, d2 !! p = Some (old +:+ suffix).

(** * Properties *)

Example replace_ex1 :
  Py.str_replace ("b" +:+ String Py.newline "c") [String Py.newline ""; ""] = Py.Ok "bc".
Proof. reflexivity. Qed.
Example basename_ex1 : Py.os_path_basename "/tmp/rec/2024-01-01_a_b.json.open" = "2024-01-01_a_b.json.open".
Proof. reflexivity. Qed.
Example str_of_int_ex1 : Py.str_of_int 1203 = "1203" /\ Py.str_of_int (-45) = "-45" /\ Py.str_of_int 0 = "0".
Proof. repeat split; reflexivity. Qed.
Example replace_ex2 : Py.replace "aa" "b" "aaaaa" = "bba" /\ Py.replace "" "-" "abc" = "-a-b-c-".
Proof. split; reflexivity. Qed.

Example strftime_ex1 :
  Datetime.strftime "%Y-%m-%d %H:%M:%S.%f UTC"
    {| Datetime.year := 2024; Datetime.month := 1; Datetime.day := 2;
       Datetime.hour := 3; Datetime.minute := 4; Datetime.second := 5;
       Datetime.microsecond := 678 |}
  = "2024-01-02 03:04:05.000678 UTC".
Proof. reflexivity. Qed.

(** A year below 1000 is not padded: the timestamp has 29 characters. *)
Example strftime_ex2 :
  Datetime.strftime "%Y-%m-%d %H:%M:%S.%f UTC"
    {| Datetime.year := 999; Datetime.month := 1; Datetime.day := 2;
       Datetime.hour := 3; Datetime.minute := 4; Datetime.second := 5;
       Datetime.microsecond := 678 |}
  = "999-01-02 03:04:05.000678 UTC".
Proof. reflexivity. Qed.

Example dumps_ex1 :
  Json.dumps_dict (<["b" := Json.Int 3]> (<["a" := Json.Str ("x" +:+ String Py.newline "y")]>
                     (<["c" := Json.List [Json.Null; Json.Bool true]]> ∅)))
  = "{" +:+ String Json.dquote "a" +:+ String Json.dquote ": "
        +:+ String Json.dquote "x\ny" +:+ String Json.dquote ", "
        +:+ String Json.dquote "b" +:+ String Json.dquote ": 3, "
        +:+ String Json.dquote "c" +:+ String Json.dquote ": [null, true]}".
Proof. vm_compute. reflexivity. Qed.

Example loads_ex1 :
  Decoder.loads "  [1, 2 , {} ,[ ], -0, 12, null]  "
  = Some (Json.List [Json.Int 1; Json.Int 2; Json.Dict []; Json.List []; Json.Int 0;
                     Json.Int 12; Json.Null]).
Proof. vm_compute. reflexivity. Qed.
Example loads_ex2 :
  Decoder.loads "[1,]" = None /\ Decoder.loads "01" = None /\ Decoder.loads "1.5" = None /\
  Decoder.loads "nul" = None /\ Decoder.loads "[true] x" = None.
Proof. repeat split; vm_compute; reflexivity. Qed.
Example loads_ex3 :
  let v := Json.Dict [("b", Json.Int (-30));
                      ("a", Json.Str ("x" +:+ String Py.newline (String Json.dquote "y")));
                      ("c", Json.List [Json.Bool true; Json.Dict [("z", Json.Int 1);
                                                                  ("k", Json.Bool false)]])] in
  Decoder.loads (Json.dumps v +:+ String Py.newline EmptyString)
  = Some (Json.Dict [("a", Json.Str ("x" +:+ String Py.newline (String Json.dquote "y")));
                     ("b", Json.Int (-30));
                     ("c", Json.List [Json.Bool true; Json.Dict [("k", Json.Bool false);
                                                                 ("z", Json.Int 1)]])]).
Proof. vm_compute. reflexivity. Qed.

(** ** Strings *)

Section StringFacts.
Implicit Types s t u : string.

Lemma str_app_nil_l t : EmptyString +:+ t = t.
Proof. reflexivity. Qed.

Lemma str_app_cons c s t : String c s +:+ t = String c (s +:+ t).
Proof. reflexivity. Qed.

Lemma str_app_nil_r s : s +:+ EmptyString = s.
Proof. induction s as [|c s IH]; [reflexivity|]. rewrite str_app_cons, IH. reflexivity. Qed.

Lemma str_app_assoc s t u : (s +:+ t) +:+ u = s +:+ t +:+ u.
Proof. induction s as [|c s IH]; [reflexivity|]. rewrite !str_app_cons, IH. reflexivity. Qed.

Lemma str_length_app s t : String.length (s +:+ t) = (String.length s + String.length t)%nat.
Proof. induction s as [|c s IH]; [reflexivity|]. rewrite str_app_cons. simpl. rewrite IH. reflexivity. Qed.

Lemma slice_to_app n s t : String.length s = n -> Py.slice_to n (s +:+ t) = s.
Proof.
  unfold Py.slice_to. revert n. induction s as [|c s IH]; intros n Hn.
  - simpl in Hn. subst n. rewrite str_app_nil_l. destruct t; reflexivity.
  - simpl in Hn. subst n. rewrite str_app_cons. simpl. rewrite IH; reflexivity.
Qed.

Lemma count_char_app c s t :
  Py.count_char c (s +:+ t) = (Py.count_char c s + Py.count_char c t)%nat.
Proof.
  induction s as [|d s IH]; [reflexivity|].
  rewrite str_app_cons. simpl. rewrite IH. lia.
Qed.

Lemma basename_go_no_slash acc r :
  Py.count_char Py.slash r = 0%nat -> Py.basename_go acc r = acc.
Proof.
  revert acc. induction r as [|c r IH]; intros acc H; [reflexivity|].
  simpl in *. destruct (Ascii.eqb c Py.slash); [discriminate|]. apply IH. exact H.
Qed.

Lemma basename_go_slash acc d r :
  Py.count_char Py.slash r = 0%nat ->
  Py.basename_go acc (d +:+ String Py.slash r) = r.
Proof.
  intros H. revert acc. induction d as [|c d IH]; intros acc.
  - rewrite str_app_nil_l. simpl. apply basename_go_no_slash, H.
  - rewrite str_app_cons. simpl. destruct (Ascii.eqb c Py.slash); apply IH.
Qed.

Lemma basename_join d r :
  Py.count_char Py.slash r = 0%nat -> Py.os_path_basename (d +:+ "/" +:+ r) = r.
Proof. intros H. unfold Py.os_path_basename. apply (basename_go_slash _ d r H). Qed.
End StringFacts.

(** ** Decimal digits *)

Section DigitFacts.

Lemma all_chars_app P s t : all_chars P (s +:+ t) = all_chars P s && all_chars P t.
Proof.
  induction s as [|c s IH]; [reflexivity|].
  rewrite str_app_cons. simpl. rewrite IH. apply andb_assoc.
Qed.

Lemma N_of_digit d : (d < 10)%N -> Ascii.N_of_ascii (Py.digit d) = (48 + d)%N.
Proof.
  intros H. unfold Py.digit. apply Ascii.N_ascii_embedding. lia.
Qed.

Lemma digit_is_digit d : (d < 10)%N -> is_digit (Py.digit d) = true.
Proof.
  intros H. unfold is_digit. rewrite N_of_digit by exact H.
  apply andb_true_intro. split; apply N.leb_le; lia.
Qed.

Lemma str_of_N_go_acc fuel n acc :
  Py.str_of_N_go fuel n acc = Py.str_of_N_go fuel n EmptyString +:+ acc.
Proof.
  revert n acc. induction fuel as [|fuel IH]; intros n acc; [reflexivity|].
  simpl. destruct (n <? 10)%N; [reflexivity|].
  rewrite IH. rewrite (IH _ (String _ EmptyString)).
  rewrite str_app_assoc. reflexivity.
Qed.

Lemma str_of_N_go_digits fuel n :
  all_chars is_digit (Py.str_of_N_go fuel n EmptyString) = true.
Proof.
  revert n. induction fuel as [|fuel IH]; intros n; [reflexivity|].
  simpl. assert (Hd : is_digit (Py.digit (n mod 10)) = true).
  { apply digit_is_digit. apply N.mod_lt. lia. }
  destruct (n <? 10)%N.
  - simpl. rewrite Hd. reflexivity.
  - rewrite str_of_N_go_acc, all_chars_app, IH. simpl. rewrite Hd. reflexivity.
Qed.

Lemma str_of_N_digits n : all_chars is_digit (Py.str_of_N n) = true.
Proof. apply str_of_N_go_digits. Qed.

(** A number below [10^k] has at most [k] digits. *)
Lemma str_of_N_go_length fuel n k :
  (n < 10 ^ N.of_nat k)%N -> (0 < k)%nat -> (0 < fuel)%nat ->
  (String.length (Py.str_of_N_go fuel n EmptyString) <= k)%nat.
Proof.
  revert n k. induction fuel as [|fuel IH]; intros n k Hn Hk Hf; [lia|].
  simpl. destruct (n <? 10)%N eqn:E; [simpl; lia|].
  apply N.ltb_ge in E.
  destruct fuel as [|fuel]; [simpl; lia|].
  rewrite str_of_N_go_acc, str_length_app. simpl String.length at 2.
  destruct k as [|k]; [lia|].
  destruct k as [|k].
  { change (10 ^ N.of_nat 1)%N with 10%N in Hn. lia. }
  assert (String.length (Py.str_of_N_go (S fuel) (n / 10) EmptyString) <= S k)%nat; [|lia].
  apply IH; [|lia|lia].
  apply N.Div0.div_lt_upper_bound.
  replace (N.of_nat (S (S k))) with (N.succ (N.of_nat (S k))) in Hn by lia.
  rewrite N.pow_succ_r' in Hn. exact Hn.
Qed.

Lemma str_of_N_nonempty n : Py.str_of_N n <> EmptyString.
Proof.
  unfold Py.str_of_N. simpl. destruct (n <? 10)%N; [discriminate|].
  rewrite str_of_N_go_acc. destruct (Py.str_of_N_go _ _ _); discriminate.
Qed.

Lemma str_of_N_fuel n : (n < 10 ^ N.of_nat (S (N.to_nat (N.log2 n))))%N.
Proof.
  destruct (N.eq_dec n 0) as [->|Hn]; [reflexivity|].
  replace (N.of_nat (S (N.to_nat (N.log2 n)))) with (N.succ (N.log2 n)) by lia.
  pose proof (N.log2_spec n ltac:(lia)) as [_ H].
  eapply N.lt_le_trans; [exact H|].
  apply N.pow_le_mono_l. lia.
Qed.

(** A number from [10^k] on has more than [k] digits. *)
Lemma str_of_N_go_length_lb fuel n k :
  (10 ^ N.of_nat k <= n)%N -> (n < 10 ^ N.of_nat fuel)%N ->
  (k < String.length (Py.str_of_N_go fuel n EmptyString))%nat.
Proof.
  revert n k. induction fuel as [|fuel IH]; intros n k Hk Hn.
  - simpl in Hn. pose proof (N.pow_nonzero 10 (N.of_nat k) ltac:(lia)). lia.
  - simpl. destruct (n <? 10)%N eqn:E.
    + apply N.ltb_lt in E. destruct k as [|k]; [simpl; lia|].
      replace (N.of_nat (S k)) with (N.succ (N.of_nat k)) in Hk by lia.
      rewrite N.pow_succ_r' in Hk.
      pose proof (N.pow_nonzero 10 (N.of_nat k) ltac:(lia)). nia.
    + rewrite str_of_N_go_acc, str_length_app. simpl String.length at 2.
      destruct k as [|k]; [lia|].
      assert (k < String.length (Py.str_of_N_go fuel (n / 10) EmptyString))%nat; [|lia].
      apply IH.
      * apply N.div_le_lower_bound; [lia|].
        replace (N.of_nat (S k)) with (N.succ (N.of_nat k)) in Hk by lia.
        rewrite N.pow_succ_r' in Hk. exact Hk.
      * apply N.Div0.div_lt_upper_bound.
        replace (N.of_nat (S fuel)) with (N.succ (N.of_nat fuel)) in Hn by lia.
        rewrite N.pow_succ_r' in Hn. exact Hn.
Qed.

(** The years from 1000 to 9999 have four digits. *)
Lemma str_of_N_length4 n :
  (1000 <= n <= 9999)%N -> String.length (Py.str_of_N n) = 4%nat.
Proof.
  intros [L U].
  pose proof (str_of_N_go_length (S (N.to_nat (N.log2 n))) n 4
                ltac:(simpl; lia) ltac:(lia) ltac:(lia)) as H1.
  pose proof (str_of_N_go_length_lb (S (N.to_nat (N.log2 n))) n 3
                ltac:(simpl; lia) (str_of_N_fuel n)) as H2.
  fold (Py.str_of_N n) in H1, H2. lia.
Qed.

Lemma length_zeros n : String.length (Datetime.zeros n) = n.
Proof. induction n as [|n IH]; [reflexivity|]. simpl. rewrite IH. reflexivity. Qed.

Lemma zfill_length w n :
  (n < 10 ^ N.of_nat w)%N -> (0 < w)%nat -> String.length (Datetime.zfill w n) = w.
Proof.
  intros Hn Hw. unfold Datetime.zfill.
  rewrite str_length_app, length_zeros.
  pose proof (str_of_N_go_length (S (N.to_nat (N.log2 n))) n w Hn Hw ltac:(lia)) as H.
  fold (Py.str_of_N n) in H. lia.
Qed.

Lemma zfill_digits w n : all_chars is_digit (Datetime.zfill w n) = true.
Proof.
  unfold Datetime.zfill. rewrite all_chars_app, str_of_N_digits, andb_true_r.
  induction (w - _)%nat as [|k IH]; [reflexivity|]. simpl. exact IH.
Qed.

End DigitFacts.

(** ** strftime *)

Lemma date_part_eq d :
  Datetime.strftime "%Y-%m-%d" d
  = Py.str_of_N (Datetime.year d) +:+ "-" +:+ Datetime.zfill 2 (Datetime.month d)
      +:+ "-" +:+ Datetime.zfill 2 (Datetime.day d).
Proof.
  cbv beta iota delta [Datetime.strftime Ascii.eqb Datetime.percent Bool.eqb Datetime.directive].
  rewrite str_app_nil_r. reflexivity.
Qed.

Lemma date_part_length d :
  Datetime.four_digit d -> String.length (Datetime.strftime "%Y-%m-%d" d) = 10%nat.
Proof.
  intros [(Hy & Hm & Hd & _) Y]. rewrite date_part_eq.
  rewrite !str_length_app, str_of_N_length4 by lia.
  rewrite !zfill_length by (simpl; lia). reflexivity.
Qed.

Lemma ts_utc_split d :
  Datetime.strftime ts_format d
  = Datetime.strftime "%Y-%m-%d" d +:+ Datetime.strftime " %H:%M:%S.%f UTC" d.
Proof.
  unfold ts_format.
  cbv beta iota delta [Datetime.strftime Ascii.eqb Datetime.percent Bool.eqb Datetime.directive].
  rewrite str_app_nil_r. repeat (rewrite str_app_assoc || rewrite str_app_cons). reflexivity.
Qed.

Lemma ts_utc_prefix d :
  Datetime.four_digit d ->
  Py.slice_to 10 (Datetime.strftime ts_format d) = Datetime.strftime "%Y-%m-%d" d.
Proof.
  intros H. rewrite ts_utc_split. apply slice_to_app, date_part_length, H.
Qed.

(** ** The receive cycle *)

Lemma received_message_eq clock websocket_msg s :
  received_message clock websocket_msg s =
  let o := stamped clock websocket_msg s in
  let f := data_file (self s) in
  if decide (same_day clock s) then
    if File.closed f then
      (Py.Raise Py.ValueError,
       {| self := o; disk := disk s; ticks := S (ticks s); outbox := outbox s |})
    else
      (Py.Ok tt,
       {| self := o;
          disk := <[File.name f :=
                      default EmptyString (disk s !! File.name f) +:+ line_of (full_message o)]>
                    (disk s);
          ticks := S (ticks s); outbox := outbox s |})
  else
    (Py.Raise Py.TypeError,
     {| self := set_data_file (close_file f) o; disk := disk s;
        ticks := S (ticks s); outbox := outbox s |}).
Proof.
  unfold received_message, same_day, stamped, line_of, close_file.
  unfold bind, get_msg_seq_no, full_message_setitem, full_message_getitem_str,
    datetime_now, lift, assign, get_self, ret, bind, data_file_write, data_file_close.
  cbn [self disk ticks outbox fst snd full_message set_full_message set_msg_seq_no
       msg_seq_no data_file Py.str_replace set_data_file].
  rewrite lookup_insert_ne by discriminate. rewrite lookup_insert_eq.
  cbn [self disk ticks outbox fst snd full_message set_full_message set_msg_seq_no
       msg_seq_no data_file Py.str_replace set_data_file].
  unfold same_day_dec, ts_format.
  destruct (decide _) as [E|E]; [|reflexivity].
  cbn [self disk ticks outbox fst snd full_message set_full_message set_msg_seq_no
       msg_seq_no data_file Py.str_replace set_data_file].
  destruct (File.closed (data_file (self s))); reflexivity.
Qed.

(** ** Construction *)

Lemma generate_filename_eq clock s :
  generate_filename clock s =
  (Py.Ok (filename_for (data_dir (self s)) (ws_name (self s)) (hostname (self s))
            (clock (ticks s))),
   {| self := self s; disk := disk s; ticks := S (ticks s); outbox := outbox s |}).
Proof. reflexivity. Qed.

Lemma init_eq clock pid dd u imo dfl host ws hb extra disk0 t0 :
  __init__ clock pid dd u imo dfl host ws hb extra (boot disk0 t0) =
  (Py.Ok tt,
   {| self :=
        {| url := u; initial_msg_out := imo; data_file_lines := dfl; lines_counter := 0;
           ws_name := ws; hostname := host; data_dir := dd;
           data_file := {| File.name := filename_for dd ws host (clock t0);
                           File.closed := false |};
           msg_seq_no := 0;
           full_message :=
             extra ∪ builtin_fields u host ws pid
                       (Datetime.strftime ts_format (clock (S t0))) |};
      disk := touch (filename_for dd ws host (clock t0)) disk0;
      ticks := S (S t0); outbox := [] |}).
Proof.
  cbv beta iota delta
    [__init__ boot bind assign generate_filename datetime_now open_append get_self ret
     self disk ticks outbox fst snd url initial_msg_out data_file_lines lines_counter
     ws_name hostname data_dir data_file msg_seq_no full_message
     set_url set_initial_msg_out set_data_file_lines set_lines_counter set_ws_name
     set_hostname set_data_dir set_data_file set_msg_seq_no set_full_message unassigned].
  destruct (decide (0 < size extra)%nat) as [H|H].
  - reflexivity.
  - assert (extra = ∅) as -> by (apply map_size_empty_iff; lia).
    rewrite (left_id_L ∅ (∪)). reflexivity.
Qed.

Lemma init_live clock pid dd u imo dfl host ws hb extra disk0 t0 :
  live (snd (__init__ clock pid dd u imo dfl host ws hb extra (boot disk0 t0))).
Proof.
  rewrite init_eq. unfold live, touch. simpl. split; [reflexivity|].
  destruct (disk0 !! _) eqn:E.
  - rewrite E. eauto.
  - rewrite lookup_insert_eq. eauto.
Qed.

(** ** Records and the template *)

Lemma prefix_nil s : String.prefix EmptyString s = true.
Proof. destruct s; reflexivity. Qed.

Lemma replace_newline m :
  Py.replace (String Py.newline EmptyString) EmptyString m = remove_char Py.newline m.
Proof.
  unfold Py.replace. induction m as [|c m IH]; [reflexivity|].
  cbn [Py.replace_go String.prefix String.length Nat.sub remove_char].
  rewrite prefix_nil.
  destruct (Ascii.ascii_dec Py.newline c) as [<-|N].
  - rewrite Ascii.eqb_refl, str_app_nil_l. exact IH.
  - destruct (Ascii.eqb_spec c Py.newline) as [->|_]; [congruence|].
    rewrite IH. reflexivity.
Qed.

Lemma remove_char_count c s : Py.count_char c (remove_char c s) = 0%nat.
Proof.
  induction s as [|d s IH]; [reflexivity|]. simpl.
  destruct (Ascii.eqb d c) eqn:E; [exact IH|]. simpl. rewrite E. exact IH.
Qed.

Lemma record_msg_seq_no t n ts p : record t n ts p !! "msg_seq_no" = Some (Json.Int n).
Proof. unfold record. by simplify_map_eq. Qed.

Lemma record_ts_utc t n ts p : record t n ts p !! "ts_utc" = Some (Json.Str ts).
Proof. unfold record. by simplify_map_eq. Qed.

Lemma record_websocket_msg t n ts p : record t n ts p !! "websocket_msg" = Some (Json.Str p).
Proof. unfold record. by simplify_map_eq. Qed.

Lemma record_other t n ts p key :
  key <> "msg_seq_no" -> key <> "ts_utc" -> key <> "websocket_msg" ->
  record t n ts p !! key = t !! key.
Proof.
  intros. unfold record. by simplify_map_eq.
Qed.

(** The per-record keys are in the template from the start, so a record has
    the keys of the template. *)
Lemma record_dom t n ts p :
  is_Some (t !! "msg_seq_no") -> is_Some (t !! "ts_utc") -> is_Some (t !! "websocket_msg") ->
  dom (record t n ts p) = dom t.
Proof.
  intros H1%elem_of_dom H2%elem_of_dom H3%elem_of_dom.
  unfold record. rewrite !dom_insert_L.
  apply set_eq. intros k. rewrite !elem_of_union, !elem_of_singleton.
  split; [intros [->|[->|[->|H]]]; assumption|auto].
Qed.

(** Whatever a call does, it leaves the three per-record items assigned. *)
Lemma received_message_full_message clock m s :
  full_message (self (snd (received_message clock m s)))
  = record (full_message (self s)) (msg_seq_no (self s) + 1)
      (Datetime.strftime ts_format (clock (ticks s))) (remove_char Py.newline m).
Proof.
  rewrite received_message_eq. cbv zeta. rewrite <- replace_newline.
  destruct (decide _); [destruct (File.closed _)|]; reflexivity.
Qed.

Lemma received_message_config clock m s :
  same_config (self s) (self (snd (received_message clock m s))).
Proof.
  rewrite received_message_eq. cbv zeta.
  destruct (decide _); [destruct (File.closed _)|]; repeat split.
Qed.

(** ** Runs of the receive loop *)

Lemma record_record template n ts p n' ts' p' :
  record (record template n ts p) n' ts' p' = record template n' ts' p'.
Proof.
  unfold record. apply map_eq. intros k.
  rewrite !lookup_insert. repeat case_decide; congruence.
Qed.

Lemma stamped_full_message clock m s :
  full_message (stamped clock m s)
  = record (full_message (self s)) (msg_seq_no (self s) + 1)
      (Datetime.strftime ts_format (clock (ticks s)))
      (Py.replace (String Py.newline EmptyString) EmptyString m).
Proof. reflexivity. Qed.

(** What a call that returns has done. *)
Lemma received_message_ok clock m s u s' :
  received_message clock m s = (Py.Ok u, s') ->
  same_day clock s /\ File.closed (data_file (self s)) = false /\
  s' = {| self := stamped clock m s;
          disk := <[File.name (data_file (self s)) :=
                      content s +:+ line_of (full_message (stamped clock m s))]> (disk s);
          ticks := S (ticks s); outbox := outbox s |}.
Proof.
  rewrite received_message_eq. cbv zeta.
  destruct (decide (same_day clock s)) as [E|E]; [|discriminate].
  destruct (File.closed (data_file (self s))) eqn:C; [discriminate|].
  intros H. injection H as _ <-. auto.
Qed.

(** What a call that raises has done. *)
Lemma received_message_raise clock m s e s' :
  received_message clock m s = (Py.Raise e, s') ->
  disk s' = disk s /\ ticks s' = S (ticks s) /\ outbox s' = outbox s /\
  (self s' = stamped clock m s \/
   self s' = set_data_file (close_file (data_file (self s))) (stamped clock m s)) /\
  (e = Py.TypeError /\ ~ same_day clock s \/
   e = Py.ValueError /\ same_day clock s /\ File.closed (data_file (self s)) = true).
Proof.
  rewrite received_message_eq. cbv zeta.
  destruct (decide (same_day clock s)) as [E|E].
  - destruct (File.closed (data_file (self s))) eqn:C; [|discriminate].
    intros H. injection H as <- <-. simpl. auto 10.
  - intros H. injection H as <- <-. simpl. auto 10.
Qed.

Lemma deliver_cons clock m msgs s :
  deliver clock (m :: msgs) s =
  match received_message clock m s with
  | (Py.Ok _, s') => deliver clock msgs s'
  | (Py.Raise e, s') => (Py.Raise e, s')
  end.
Proof. reflexivity. Qed.

Lemma live_step clock m s u s' :
  received_message clock m s = (Py.Ok u, s') -> live s' /\
  data_file (self s') = data_file (self s).
Proof.
  intros H. apply received_message_ok in H as (_ & C & ->).
  unfold live. simpl. rewrite lookup_insert_eq. eauto.
Qed.

(** The file a run appends to never changes its name. *)
Lemma deliver_name clock msgs s :
  File.name (data_file (self (snd (deliver clock msgs s))))
  = File.name (data_file (self s)).
Proof.
  revert s. induction msgs as [|m msgs IH]; intros s; [reflexivity|].
  rewrite deliver_cons. destruct (received_message clock m s) as [[u|e] s'] eqn:E.
  - rewrite IH. apply live_step in E as [_ ->]. reflexivity.
  - simpl snd. apply received_message_raise in E as (_ & _ & _ & [-> | ->] & _); reflexivity.
Qed.

(** The disk after a run: the records, in order, appended to the file. *)
Lemma deliver_disk clock msgs s :
  live s ->
  disk (snd (deliver clock msgs s))
  = <[File.name (data_file (self s)) :=
        content s +:+ concat_lines (map line_of (records clock msgs s))]> (disk s).
Proof.
  revert s. induction msgs as [|m msgs IH]; intros s [C [old Hold]].
  - simpl. unfold content. rewrite Hold. simpl. rewrite str_app_nil_r.
    symmetry. apply insert_id, Hold.
  - rewrite deliver_cons. simpl records.
    destruct (received_message clock m s) as [[u|e] s'] eqn:E.
    + pose proof (live_step _ _ _ _ _ E) as [L D].
      rewrite (IH s' L). rewrite D.
      apply received_message_ok in E as (_ & _ & ->).
      unfold content at 1. simpl. rewrite lookup_insert_eq. simpl.
      rewrite insert_insert_eq. rewrite str_app_assoc. reflexivity.
    + simpl snd. apply received_message_raise in E as (-> & _). simpl.
      unfold content. rewrite Hold. simpl. rewrite str_app_nil_r.
      symmetry. apply insert_id, Hold.
Qed.

Lemma received_message_ok_fields clock m s u s' :
  received_message clock m s = (Py.Ok u, s') ->
  ticks s' = S (ticks s) /\ msg_seq_no (self s') = msg_seq_no (self s) + 1 /\
  full_message (self s')
  = record (full_message (self s)) (msg_seq_no (self s) + 1)
      (Datetime.strftime ts_format (clock (ticks s))) (remove_char Py.newline m).
Proof.
  intros H. pose proof (received_message_full_message clock m s) as F.
  rewrite H in F. cbn [snd] in F.
  apply received_message_ok in H as (_ & _ & ->). auto.
Qed.

(** The [k]-th record of a run, in closed form. *)
Lemma records_lookup clock msgs s k d :
  records clock msgs s !! k = Some d ->
  exists m, msgs !! k = Some m /\
    d = record (full_message (self s)) (msg_seq_no (self s) + 1 + Z.of_nat k)
          (Datetime.strftime ts_format (clock (ticks s + k)%nat))
          (remove_char Py.newline m).
Proof.
  revert s k d. induction msgs as [|m msgs IH]; intros s k d H; [discriminate|].
  cbn [records] in H.
  destruct (received_message clock m s) as [[u|e] s'] eqn:E; [|discriminate].
  apply received_message_ok_fields in E as (T & N & F).
  destruct k as [|k]; simpl in H.
  - injection H as <-. exists m. split; [reflexivity|].
    rewrite F, Z.add_0_r, Nat.add_0_r. reflexivity.
  - apply IH in H as (m' & Hm & ->). exists m'. split; [exact Hm|].
    rewrite F, T, N, record_record.
    replace (S (ticks s) + k)%nat with (ticks s + S k)%nat by lia.
    replace (msg_seq_no (self s) + 1 + 1 + Z.of_nat k)
      with (msg_seq_no (self s) + 1 + Z.of_nat (S k)) by lia.
    reflexivity.
Qed.

Lemma records_length clock msgs s : (length (records clock msgs s) <= length msgs)%nat.
Proof.
  revert s. induction msgs as [|m msgs IH]; intros s; simpl; [lia|].
  destruct (received_message clock m s) as [[u|e] s']; simpl; [|lia].
  specialize (IH s'). lia.
Qed.

(** The counter after a run: one more for every record, and one more for
    the call that raised. *)
Lemma deliver_msg_seq_no clock msgs s :
  msg_seq_no (self (snd (deliver clock msgs s)))
  = msg_seq_no (self s) + Z.of_nat (length (records clock msgs s))
    + match fst (deliver clock msgs s) with Py.Ok _ => 0 | Py.Raise _ => 1 end.
Proof.
  revert s. induction msgs as [|m msgs IH]; intros s.
  - simpl. lia.
  - rewrite deliver_cons. simpl records.
    destruct (received_message clock m s) as [[u|e] s'] eqn:E.
    + rewrite IH. apply received_message_ok in E as (_ & _ & ->).
      simpl length. simpl msg_seq_no. lia.
    + simpl snd. simpl fst.
      apply received_message_raise in E as (_ & _ & _ & [-> | ->] & _); simpl; lia.
Qed.

Lemma deliver_snoc_state clock m msgs s :
  snd (deliver clock (m :: msgs) s)
  = match received_message clock m s with
    | (Py.Ok _, s') => snd (deliver clock msgs s')
    | (Py.Raise _, s') => s'
    end.
Proof. rewrite deliver_cons. destruct (received_message clock m s) as [[u|e] s']; reflexivity. Qed.

Lemma deliver_config clock msgs s :
  same_config (self s) (self (snd (deliver clock msgs s))).
Proof.
  revert s. induction msgs as [|m msgs IH]; intros s; [repeat split|].
  rewrite deliver_snoc_state.
  pose proof (received_message_config clock m s) as H.
  destruct (received_message clock m s) as [[u|e] s']; simpl in H; [|exact H].
  specialize (IH s'). unfold same_config in *.
  destruct H as (H1 & H2 & H3 & H4 & H5 & H6 & H7).
  destruct IH as (I1 & I2 & I3 & I4 & I5 & I6 & I7).
  repeat split; congruence.
Qed.

Lemma deliver_full_message_other clock msgs s key :
  key <> "msg_seq_no" -> key <> "ts_utc" -> key <> "websocket_msg" ->
  full_message (self (snd (deliver clock msgs s))) !! key = full_message (self s) !! key.
Proof.
  intros K1 K2 K3. revert s. induction msgs as [|m msgs IH]; intros s; [reflexivity|].
  rewrite deliver_snoc_state.
  pose proof (received_message_full_message clock m s) as H.
  destruct (received_message clock m s) as [[u|e] s']; simpl in H.
  - rewrite IH, H. apply record_other; assumption.
  - rewrite H. apply record_other; assumption.
Qed.

Lemma records_elem_lookup {A : Type} (l : list A) (x : A) :
  x ∈ l -> exists k, l !! k = Some x.
Proof. intros H. apply list_elem_of_lookup in H. exact H. Qed.

(** ** The rotation decision *)

(** The decision itself: a call appends the record to the current file
    exactly when the two ten-character prefixes are equal, and takes the
    other branch (the file is closed, nothing is appended) exactly when
    they differ. *)
Lemma rotation_decision clock m s :
  live s ->
  let ts := Datetime.strftime ts_format (clock (ticks s)) in
  let base := Py.os_path_basename (File.name (data_file (self s))) in
  let r := received_message clock m s in
  (Py.slice_to 10 ts = Py.slice_to 10 base <->
   fst r = Py.Ok tt /\
   data_file (self (snd r)) = data_file (self s) /\
   disk (snd r)
   = <[File.name (data_file (self s)) :=
         content s +:+ line_of (full_message (self (snd r)))]> (disk s)) /\
  (Py.slice_to 10 ts <> Py.slice_to 10 base <->
   fst r = Py.Raise Py.TypeError /\
   File.closed (data_file (self (snd r))) = true /\
   disk (snd r) = disk s).
Proof.
  intros [C _]. cbv zeta. rewrite received_message_eq. cbv zeta.
  fold (same_day clock s). rewrite C.
  destruct (decide (same_day clock s)) as [E|E]; cbn [fst snd self disk].
  - split; split.
    + intros _. auto.
    + intros _. exact E.
    + intros N. destruct (N E).
    + intros [H _]. discriminate H.
  - split; split.
    + intros H. destruct (E H).
    + intros [H _]. discriminate H.
    + intros _. auto.
    + intros _. exact E.
Qed.

(** ** Closing *)

Lemma ends_with_app suffix p : ends_with suffix (p +:+ suffix) = true.
Proof.
  induction p as [|c p IH].
  - rewrite str_app_nil_l. destruct suffix; simpl; [reflexivity|].
    destruct (decide _); congruence.
  - rewrite str_app_cons. simpl. destruct (decide _); [reflexivity|exact IH].
Qed.

Lemma filename_for_open dd ws host now :
  ends_with ".open" (filename_for dd ws host now) = true.
Proof.
  unfold filename_for.
  change ".json.open" with (".json" +:+ ".open").
  rewrite <- !str_app_assoc. apply ends_with_app.
Qed.

(** ** The line-count setting *)

Lemma received_message_data_file_lines clock m v s :
  received_message clock m (with_data_file_lines v s)
  = (fst (received_message clock m s),
     with_data_file_lines v (snd (received_message clock m s))).
Proof.
  rewrite !received_message_eq. cbv zeta.
  change (same_day clock (with_data_file_lines v s)) with (same_day clock s).
  change (same_day_dec clock (with_data_file_lines v s)) with (same_day_dec clock s).
  destruct (decide (same_day clock s)) as [E|E].
  - change (data_file (self (with_data_file_lines v s))) with (data_file (self s)).
    destruct (File.closed (data_file (self s))); reflexivity.
  - reflexivity.
Qed.

Lemma deliver_data_file_lines clock msgs v s :
  deliver clock msgs (with_data_file_lines v s)
  = (fst (deliver clock msgs s), with_data_file_lines v (snd (deliver clock msgs s))) /\
  records clock msgs (with_data_file_lines v s) = records clock msgs s.
Proof.
  revert s. induction msgs as [|m msgs IH]; intros s; [split; reflexivity|].
  rewrite !deliver_cons. cbn [records].
  rewrite received_message_data_file_lines.
  destruct (received_message clock m s) as [[x|e] s']; cbn [fst snd].
  - destruct (IH s') as [-> ->]. split; reflexivity.
  - split; reflexivity.
Qed.

Lemma deliver_lines_counter clock msgs s :
  lines_counter (self (snd (deliver clock msgs s))) = lines_counter (self s).
Proof. pose proof (deliver_config clock msgs s) as (_ & _ & _ & H & _). exact H. Qed.

(** ** Serialisation *)

Section ValueInduction.
Variable P : Json.value -> Prop.
Hypothesis HNull : P Json.Null.
Hypothesis HBool : forall b, P (Json.Bool b).
Hypothesis HInt : forall z, P (Json.Int z).
Hypothesis HStr : forall s, P (Json.Str s).
Hypothesis HList : forall l, Forall P l -> P (Json.List l).
Hypothesis HDict : forall d, Forall (fun kv => P (snd kv)) d -> P (Json.Dict d).

Lemma value_induction (v : Json.value) : P v.
Proof.
  revert v. fix IH 1. intros [| b | z | s | l | d].
  - apply HNull.
  - apply HBool.
  - apply HInt.
  - apply HStr.
  - apply HList. induction l as [|x l IHl]; constructor; [apply IH|exact IHl].
  - apply HDict. induction d as [|kv d IHd]; constructor; [apply IH|exact IHd].
Qed.
End ValueInduction.

Lemma all_chars_count P c s :
  all_chars P s = true -> P c = false -> Py.count_char c s = 0%nat.
Proof.
  intros H Hc. induction s as [|d s IH]; [reflexivity|].
  simpl in *. apply andb_prop in H as [Hd Hs].
  destruct (Ascii.eqb_spec d c) as [->|_]; [congruence|]. auto.
Qed.

Lemma str_of_int_no_newline z : Py.count_char Py.newline (Py.str_of_int z) = 0%nat.
Proof.
  assert (H : forall n, Py.count_char Py.newline (Py.str_of_N n) = 0%nat).
  { intros n. apply (all_chars_count is_digit); [apply str_of_N_digits|reflexivity]. }
  destruct z; unfold Py.str_of_int; [reflexivity|apply H|]. simpl. apply H.
Qed.

Lemma escape_char_no_newline c : Py.count_char Py.newline (Json.escape_char c) = 0%nat.
Proof. destruct c as [[] [] [] [] [] [] [] []]; reflexivity. Qed.

Lemma escape_no_newline s : Py.count_char Py.newline (Json.escape s) = 0%nat.
Proof.
  induction s as [|c s IH]; [reflexivity|].
  simpl. rewrite count_char_app, escape_char_no_newline, IH. reflexivity.
Qed.

Lemma encode_str_no_newline s : Py.count_char Py.newline (Json.encode_str s) = 0%nat.
Proof.
  unfold Json.encode_str. simpl. rewrite count_char_app, escape_no_newline. reflexivity.
Qed.

Lemma concat_no_newline sep l :
  Py.count_char Py.newline sep = 0%nat ->
  Forall (fun s => Py.count_char Py.newline s = 0%nat) l ->
  Py.count_char Py.newline (String.concat sep l) = 0%nat.
Proof.
  intros Hsep H. induction H as [|x l Hx Hl IH]; [reflexivity|].
  simpl. destruct l as [|y l]; [exact Hx|].
  rewrite !count_char_app, Hx, Hsep, IH. reflexivity.
Qed.

Lemma Forall_insert_item {A : Type} (Q : string * A -> Prop) x l :
  Q x -> Forall Q l -> Forall Q (Json.insert_item x l).
Proof.
  intros Hx H. induction H as [|y l Hy Hl IH]; simpl.
  - constructor; [exact Hx|constructor].
  - destruct (String.leb (fst x) (fst y)); repeat constructor; assumption.
Qed.

Lemma Forall_sort_items {A : Type} (Q : string * A -> Prop) l :
  Forall Q l -> Forall Q (Json.sort_items l).
Proof.
  intros H. induction H as [|x l Hx Hl IH]; [constructor|].
  simpl. apply Forall_insert_item; assumption.
Qed.

Lemma dumps_Dict d :
  Json.dumps (Json.Dict d)
  = "{" +:+ String.concat ", "
              (map Json.item
                 (Json.sort_items (map (fun kv => (fst kv, Json.dumps (snd kv))) d)))
        +:+ "}".
Proof. reflexivity. Qed.

Lemma dumps_List l :
  Json.dumps (Json.List l) = "[" +:+ String.concat ", " (map Json.dumps l) +:+ "]".
Proof. reflexivity. Qed.

(** The output of [json.dumps] has no newline character. *)
Lemma dumps_no_newline v : Py.count_char Py.newline (Json.dumps v) = 0%nat.
Proof.
  induction v as [| [] | z | s | l IH | d IH] using value_induction;
    try reflexivity.
  - apply str_of_int_no_newline.
  - apply encode_str_no_newline.
  - rewrite dumps_List, !count_char_app.
    rewrite concat_no_newline; [reflexivity|reflexivity|].
    apply Forall_map. exact IH.
  - rewrite dumps_Dict, !count_char_app.
    rewrite concat_no_newline; [reflexivity|reflexivity|].
    apply Forall_map. apply Forall_sort_items. apply Forall_map.
    eapply Forall_impl; [exact IH|]. intros [k v] H. cbn [fst snd] in *.
    unfold Json.item. cbn [fst snd].
    rewrite !count_char_app, encode_str_no_newline, H. reflexivity.
Qed.

Lemma line_of_newlines d :
  Py.count_char Py.newline (Json.dumps_dict d) = 0%nat /\
  Py.count_char Py.newline (line_of d) = 1%nat.
Proof.
  assert (H : Py.count_char Py.newline (Json.dumps_dict d) = 0%nat)
    by apply dumps_no_newline.
  split; [exact H|]. unfold line_of. rewrite count_char_app, H. reflexivity.
Qed.

(** ** The value of a decimal string *)

Lemma digits_value_app acc s t :
  digits_value acc (s +:+ t) = digits_value (digits_value acc s) t.
Proof.
  revert acc. induction s as [|c s IH]; intros acc; [reflexivity|].
  rewrite str_app_cons. simpl. apply IH.
Qed.

Lemma digit_val_digit d : (d < 10)%N -> digit_val (Py.digit d) = d.
Proof. intros H. unfold digit_val. rewrite N_of_digit by exact H. lia. Qed.

Lemma str_of_N_go_value fuel n :
  (n < 10 ^ N.of_nat fuel)%N -> digits_value 0 (Py.str_of_N_go fuel n EmptyString) = n.
Proof.
  revert n. induction fuel as [|fuel IH]; intros n Hn.
  - simpl in Hn. assert (n = 0%N) as -> by lia. reflexivity.
  - simpl. destruct (n <? 10)%N eqn:E.
    + apply N.ltb_lt in E. simpl. rewrite N.mod_small by exact E.
      rewrite digit_val_digit by exact E. lia.
    + apply N.ltb_ge in E.
      rewrite str_of_N_go_acc, digits_value_app.
      rewrite IH.
      * simpl. rewrite digit_val_digit by (apply N.mod_lt; lia).
        rewrite (N.div_mod n 10) at 3 by lia. lia.
      * apply N.Div0.div_lt_upper_bound.
        replace (N.of_nat (S fuel)) with (N.succ (N.of_nat fuel)) in Hn by lia.
        rewrite N.pow_succ_r' in Hn. exact Hn.
Qed.

Lemma str_of_N_value n : digits_value 0 (Py.str_of_N n) = n.
Proof. apply str_of_N_go_value, str_of_N_fuel. Qed.

Lemma digits_value_zeros k s : digits_value 0 (Datetime.zeros k +:+ s) = digits_value 0 s.
Proof. induction k as [|k IH]; [reflexivity|]. simpl. exact IH. Qed.

Lemma zfill_value w n : digits_value 0 (Datetime.zfill w n) = n.
Proof. unfold Datetime.zfill. rewrite digits_value_zeros. apply str_of_N_value. Qed.

(** ** Decoding what was encoded *)

Lemma scan_string_escape_char c t :
  Decoder.scan_string (Json.escape_char c +:+ t)
  = Decoder.cons_char c (Decoder.scan_string t).
Proof. destruct c as [[] [] [] [] [] [] [] []]; reflexivity. Qed.

Lemma scan_string_escape s rest :
  Decoder.scan_string (Json.escape s +:+ String Json.dquote rest) = Some (s, rest).
Proof.
  induction s as [|c s IH]; [reflexivity|].
  cbn [Json.escape]. rewrite str_app_assoc, scan_string_escape_char, IH. reflexivity.
Qed.

Lemma scan_encode_str s rest :
  Json.encode_str s +:+ rest = String Json.dquote (Json.escape s +:+ String Json.dquote rest).
Proof.
  unfold Json.encode_str. rewrite str_app_cons, str_app_assoc, str_app_cons, str_app_nil_l. reflexivity.
Qed.

Lemma scan_digits_app acc ds rest :
  all_chars is_digit ds = true ->
  match rest with EmptyString => True | String c _ => is_digit c = false end ->
  Decoder.scan_digits acc (ds +:+ rest) = (digits_value acc ds, rest).
Proof.
  revert acc. induction ds as [|c ds IH]; intros acc Hd Hr.
  - rewrite str_app_nil_l. destruct rest as [|c r]; [reflexivity|]. simpl. rewrite Hr. reflexivity.
  - simpl in Hd. apply andb_prop in Hd as [Hc Hd].
    rewrite str_app_cons. simpl. rewrite Hc. apply IH; assumption.
Qed.

(** The decimal form of a positive number starts with a digit other than 0. *)
Lemma str_of_N_go_head fuel n :
  (n < 10 ^ N.of_nat fuel)%N -> (0 < n)%N ->
  exists c s, Py.str_of_N_go fuel n EmptyString = String c s /\
              is_digit c = true /\ Ascii.eqb c "0" = false.
Proof.
  revert n. induction fuel as [|fuel IH]; intros n Hn Hp.
  - simpl in Hn. lia.
  - simpl. destruct (n <? 10)%N eqn:E.
    + apply N.ltb_lt in E. exists (Py.digit (n mod 10)), EmptyString.
      split; [reflexivity|]. split; [apply digit_is_digit, N.mod_lt; lia|].
      rewrite N.mod_small by exact E.
      assert (n = 1 \/ n = 2 \/ n = 3 \/ n = 4 \/ n = 5 \/ n = 6 \/ n = 7 \/ n = 8 \/ n = 9)%N
        as H by lia.
      destruct H as [->|[->|[->|[->|[->|[->|[->|[->| ->]]]]]]]]; reflexivity.
    + apply N.ltb_ge in E. rewrite str_of_N_go_acc.
      destruct (IH (n / 10)%N) as (c & s & -> & Hc & Hz).
      * apply N.Div0.div_lt_upper_bound.
        replace (N.of_nat (S fuel)) with (N.succ (N.of_nat fuel)) in Hn by lia.
        rewrite N.pow_succ_r' in Hn. exact Hn.
      * apply N.div_str_pos. lia.
      * exists c, (s +:+ String (Py.digit (n mod 10)) EmptyString).
        rewrite str_app_cons. auto.
Qed.

Lemma scan_number_str_of_int z rest :
  delimited rest ->
  Decoder.scan_number (Py.str_of_int z +:+ rest) = Some (z, rest).
Proof.
  intros D.
  assert (F : Decoder.float_tail rest = false).
  { destruct rest as [|c r]; [reflexivity|]. apply D. }
  assert (R : match rest with EmptyString => True | String c _ => is_digit c = false end).
  { destruct rest as [|c r]; [exact I|]. apply D. }
  assert (P : forall p, Decoder.scan_int (Py.str_of_N (Npos p) +:+ rest)
                        = Some (Npos p, rest)).
  { intros p.
    destruct (str_of_N_go_head _ (Npos p) (str_of_N_fuel (Npos p)) ltac:(lia))
      as (c & s & E & Hc & Hz).
    fold (Py.str_of_N (Npos p)) in E.
    pose proof (str_of_N_digits (Npos p)) as Hd.
    pose proof (str_of_N_value (Npos p)) as Hv.
    pose proof (scan_digits_app 0 (Py.str_of_N (Npos p)) rest Hd R) as Hs.
    rewrite Hv in Hs. rewrite E in Hs |- *. rewrite str_app_cons in Hs |- *.
    unfold Decoder.scan_int. rewrite Hz, Hc, Hs. reflexivity. }
  destruct z as [|p|p]; unfold Py.str_of_int, Decoder.scan_number.
  - rewrite str_app_cons, str_app_nil_l. cbn. rewrite F. reflexivity.
  - destruct (str_of_N_go_head _ (Npos p) (str_of_N_fuel (Npos p)) ltac:(lia))
      as (c & s & E & Hc & Hz).
    fold (Py.str_of_N (Npos p)) in E.
    assert (M : Ascii.eqb c "-" = false).
    { destruct (Ascii.eqb_spec c "-") as [->|]; [discriminate Hc|reflexivity]. }
    pose proof (P p) as HP. rewrite E in HP |- *. rewrite str_app_cons in HP |- *.
    rewrite M, HP, F. reflexivity.
  - rewrite str_app_cons. cbn [Ascii.eqb Bool.eqb]. rewrite P, F. reflexivity.
Qed.

(** ** Sorting the items *)

Lemma insert_item_perm {A : Type} (x : string * A) l : Json.insert_item x l ≡ₚ x :: l.
Proof.
  induction l as [|y l IH]; simpl; [reflexivity|].
  destruct (String.leb (fst x) (fst y)); [reflexivity|].
  rewrite IH. apply Permutation_swap.
Qed.

Lemma sort_items_perm {A : Type} (l : list (string * A)) : Json.sort_items l ≡ₚ l.
Proof.
  induction l as [|x l IH]; simpl; [reflexivity|].
  rewrite insert_item_perm, IH. reflexivity.
Qed.

Lemma insert_item_map {A B : Type} (f : A -> B) (x : string * A) l :
  Json.insert_item (fst x, f (snd x)) (map (fun kv => (fst kv, f (snd kv))) l)
  = map (fun kv => (fst kv, f (snd kv))) (Json.insert_item x l).
Proof.
  induction l as [|y l IH]; simpl; [reflexivity|].
  destruct (String.leb (fst x) (fst y)); simpl; [reflexivity|].
  rewrite <- IH. reflexivity.
Qed.

Lemma sort_items_map {A B : Type} (f : A -> B) (l : list (string * A)) :
  Json.sort_items (map (fun kv => (fst kv, f (snd kv))) l)
  = map (fun kv => (fst kv, f (snd kv))) (Json.sort_items l).
Proof.
  induction l as [|x l IH]; simpl; [reflexivity|].
  rewrite IH. apply insert_item_map.
Qed.





Lemma sort_items_nodup {A : Type} (l : list (string * A)) :
  NoDup (map fst l) -> NoDup (map fst (Json.sort_items l)).
Proof. intros H. rewrite sort_items_perm. exact H. Qed.

Lemma sort_items_nil {A : Type} (l : list (string * A)) :
  Json.sort_items l = [] -> l = [].
Proof.
  intros H. apply Permutation_nil_r. rewrite <- H. symmetry. apply sort_items_perm.
Qed.

Lemma sort_items_cost (d : list (string * Json.value)) :
  foldr (fun kv n => S (cost (snd kv) + n)) O (Json.sort_items d)
  = foldr (fun kv n => S (cost (snd kv) + n)) O d.
Proof.
  assert (I : forall x l,
             foldr (fun kv n => S (cost (snd kv) + n)) O (Json.insert_item x l)
             = S (cost (snd x) + foldr (fun kv n => S (cost (snd kv) + n)) O l)).
  { intros x l. induction l as [|y l IH]; simpl; [reflexivity|].
    destruct (String.leb (fst x) (fst y)); simpl; [reflexivity|]. rewrite IH. lia. }
  induction d as [|x d IH]; simpl; [reflexivity|]. rewrite I, IH. reflexivity.
Qed.

(** ** dict(pairs) *)

Lemma dict_set_fresh k v d :
  k ∉ map fst d -> Decoder.dict_set k v d = d ++ [(k, v)].
Proof.
  induction d as [|kv d IH]; intros H; simpl; [reflexivity|].
  simpl in H. apply not_elem_of_cons in H as [Hk Hd].
  destruct (decide (k = fst kv)); [contradiction|]. rewrite IH by exact Hd. reflexivity.
Qed.

Lemma dict_of_pairs_nodup pairs :
  NoDup (map fst pairs) -> Decoder.dict_of_pairs pairs = pairs.
Proof.
  unfold Decoder.dict_of_pairs.
  assert (G : forall acc,
             NoDup (map fst (acc ++ pairs)) ->
             fold_left (fun d kv => Decoder.dict_set (fst kv) (snd kv) d) pairs acc
             = acc ++ pairs).
  { induction pairs as [|[k v] pairs IH]; intros acc H; simpl.
    - rewrite app_nil_r. reflexivity.
    - rewrite dict_set_fresh.
      + rewrite IH; rewrite <- app_assoc; [reflexivity|exact H].
      + rewrite map_app in H. simpl in H.
        apply NoDup_app in H as (_ & H & _). intros Hk. apply (H k Hk). left. }
  intros H. apply (G [] H).
Qed.

(** ** The first character of a serialised value *)

Lemma is_digit_start c :
  is_digit c = true ->
  Decoder.is_ws c = false /\ Ascii.eqb c "]" = false /\ Ascii.eqb c "-" = false /\
  Ascii.eqb c Json.dquote = false /\ Ascii.eqb c "{" = false /\ Ascii.eqb c "[" = false /\
  Ascii.eqb c "n" = false /\ Ascii.eqb c "t" = false /\ Ascii.eqb c "f" = false.
Proof.
  destruct c as [[] [] [] [] [] [] [] []]; intros H; try discriminate H;
    repeat split; reflexivity.
Qed.

Lemma str_of_int_head z :
  exists c s, Py.str_of_int z = String c s /\
    (is_digit c = true \/ c = "-"%char).
Proof.
  destruct z as [|p|p]; unfold Py.str_of_int.
  - exists "0"%char, EmptyString. auto.
  - destruct (str_of_N_go_head _ (Npos p) (str_of_N_fuel (Npos p)) ltac:(lia))
      as (c & s & E & Hc & _).
    exists c, s. auto.
  - eexists _, _. split; [reflexivity|]. auto.
Qed.

Lemma dumps_head v :
  exists c s, Json.dumps v = String c s /\
    Decoder.is_ws c = false /\ Ascii.eqb c "]" = false.
Proof.
  destruct v as [| [] | z | s | l | d];
    try (eexists _, _; split; [reflexivity|split; reflexivity]).
  destruct (str_of_int_head z) as (c & s & E & [H| ->]).
  - exists c, s. split; [exact E|]. apply is_digit_start in H. tauto.
  - eexists _, _. split; [exact E|]. split; reflexivity.
Qed.

Lemma skip_ws_head c s : Decoder.is_ws c = false -> Decoder.skip_ws (String c s) = String c s.
Proof. intros H. simpl. rewrite H. reflexivity. Qed.

Lemma skip_ws_dumps v rest :
  Decoder.skip_ws (Json.dumps v +:+ rest) = Json.dumps v +:+ rest.
Proof.
  destruct (dumps_head v) as (c & s & -> & H & _).
  rewrite str_app_cons. apply skip_ws_head, H.
Qed.

(** ** Decoding the scalars *)

Lemma scan_once_number fuel c s :
  is_digit c = true \/ c = "-"%char ->
  Decoder.scan_once (S fuel) (String c s)
  = match Decoder.scan_number (String c s) with
    | Some (z, rest) => Some (Json.Int z, rest)
    | None => None
    end.
Proof.
  intros [H| ->]; [|reflexivity].
  apply is_digit_start in H as (_ & _ & _ & H1 & H2 & H3 & H4 & H5 & H6).
  cbn [Decoder.scan_once]. rewrite H1, H2, H3, H4, H5, H6. reflexivity.
Qed.

Lemma decodes_scalar v :
  match v with Json.List _ | Json.Dict _ => False | _ => True end -> decodes v.
Proof.
  intros Hv fuel rest Hf D.
  destruct fuel as [|fuel]; [destruct v; simpl in Hf; try lia; contradiction|].
  destruct v as [| [] | z | s | l | d]; try contradiction; try reflexivity.
  - destruct (str_of_int_head z) as (c & s & E & H).
    change (Json.dumps (Json.Int z)) with (Py.str_of_int z).
    pose proof (scan_number_str_of_int z rest D) as N.
    rewrite E in N |- *. rewrite str_app_cons in N |- *.
    rewrite (scan_once_number fuel c _ H), N. reflexivity.
  - change (Json.dumps (Json.Str s)) with (Json.encode_str s).
    rewrite scan_encode_str. cbn [Decoder.scan_once].
    rewrite Ascii.eqb_refl, scan_string_escape. reflexivity.
Qed.

(** ** Decoding lists and dicts *)

Lemma concat_cons2 sep x y l :
  String.concat sep (x :: y :: l) = x +:+ sep +:+ String.concat sep (y :: l).
Proof. reflexivity. Qed.

Lemma delimited_punct c s :
  is_digit c = false -> Decoder.float_tail (String c s) = false -> delimited (String c s).
Proof. intros H1 H2. split; assumption. Qed.

Lemma skip_ws_concat_dumps x l rest :
  Decoder.skip_ws (String.concat ", " (map Json.dumps (x :: l)) +:+ rest)
  = String.concat ", " (map Json.dumps (x :: l)) +:+ rest.
Proof.
  destruct l as [|y l]; cbn [map].
  - apply skip_ws_dumps.
  - rewrite concat_cons2, str_app_assoc. apply skip_ws_dumps.
Qed.

Lemma scan_items_dumps l :
  l <> [] -> Forall decodes l ->
  forall fuel rest, (items_cost l <= fuel)%nat ->
    Decoder.scan_items fuel (String.concat ", " (map Json.dumps l) +:+ String "]" rest)
    = Some (map canonical l, rest).
Proof.
  intros Hne H. induction H as [|x l Hx Hl IH]; [contradiction|].
  intros fuel rest Hf. unfold items_cost in Hf. cbn [foldr] in Hf.
  destruct fuel as [|fuel]; [lia|].
  destruct l as [|y l].
  - cbn [map String.concat Decoder.scan_items].
    rewrite (Hx fuel (String "]" rest)); [reflexivity|simpl in Hf; lia|].
    apply delimited_punct; reflexivity.
  - cbn [map]. rewrite concat_cons2, !str_app_assoc.
    change (", " +:+ ?t) with (String "," (String " " t)).
    cbn [Decoder.scan_items].
    rewrite (Hx fuel); [|lia|apply delimited_punct; reflexivity].
    change (Decoder.skip_ws (String "," ?t)) with (String "," t).
    cbn [Ascii.eqb Bool.eqb].
    change (Decoder.skip_ws (String " " ?t)) with (Decoder.skip_ws t).
    change (String.concat ", " (Json.dumps y :: map Json.dumps l))
      with (String.concat ", " (map Json.dumps (y :: l))).
    rewrite skip_ws_concat_dumps.
    rewrite IH; [reflexivity|discriminate|].
    unfold items_cost. cbn [foldr] in *. lia.
Qed.

Lemma item_dumps kv rest :
  Json.item (dumps_item kv) +:+ rest
  = String Json.dquote
      (Json.escape (fst kv) +:+
       String Json.dquote (String ":" (String " " (Json.dumps (snd kv) +:+ rest)))).
Proof.
  unfold Json.item, dumps_item. cbn [fst snd].
  rewrite !str_app_assoc, scan_encode_str. reflexivity.
Qed.

Lemma scan_members_dumps d :
  d <> [] -> Forall (fun kv => decodes (snd kv)) d ->
  forall fuel rest, (members_cost d <= fuel)%nat ->
    Decoder.scan_members fuel
      (String.concat ", " (map Json.item (map dumps_item d)) +:+ String "}" rest)
    = Some (map canonical_item d, rest).
Proof.
  intros Hne H. induction H as [|x d Hx Hd IH]; [contradiction|].
  intros fuel rest Hf. unfold members_cost in Hf. cbn [foldr] in Hf.
  destruct fuel as [|fuel]; [lia|].
  destruct d as [|y d].
  - cbn [map String.concat]. rewrite item_dumps.
    cbn [Decoder.scan_members]. rewrite Ascii.eqb_refl, scan_string_escape.
    change (Decoder.skip_ws (String ":" ?t)) with (String ":" t).
    cbn [Ascii.eqb Bool.eqb].
    change (Decoder.skip_ws (String " " ?t)) with (Decoder.skip_ws t).
    rewrite skip_ws_dumps.
    rewrite (Hx fuel (String "}" rest)); [reflexivity|simpl in Hf; lia|].
    apply delimited_punct; reflexivity.
  - cbn [map]. rewrite concat_cons2, !str_app_assoc. rewrite item_dumps.
    change (", " +:+ ?t) with (String "," (String " " t)).
    cbn [Decoder.scan_members]. rewrite Ascii.eqb_refl, scan_string_escape.
    change (Decoder.skip_ws (String ":" ?t)) with (String ":" t).
    cbn [Ascii.eqb Bool.eqb].
    change (Decoder.skip_ws (String " " ?t)) with (Decoder.skip_ws t) at 1.
    rewrite skip_ws_dumps.
    rewrite (Hx fuel); [|lia|apply delimited_punct; reflexivity].
    change (Decoder.skip_ws (String "," ?t)) with (String "," t).
    cbn [Ascii.eqb Bool.eqb].
    change (Decoder.skip_ws (String " " ?t)) with (Decoder.skip_ws t).
    change (Json.item (dumps_item y) :: map Json.item (map dumps_item d))
      with (map Json.item (map dumps_item (y :: d))).
    assert (S : forall t, Decoder.skip_ws
                            (String.concat ", " (map Json.item (map dumps_item (y :: d))) +:+ t)
                          = String.concat ", " (map Json.item (map dumps_item (y :: d))) +:+ t).
    { intros t. destruct d as [|z d]; cbn [map].
      - cbn [String.concat]. rewrite item_dumps. reflexivity.
      - rewrite concat_cons2, !str_app_assoc, item_dumps. reflexivity. }
    rewrite S.
    rewrite IH; [reflexivity|discriminate|].
    unfold members_cost. cbn [foldr] in *. lia.
Qed.

Lemma concat_dumps_head x l rest :
  exists c s, String.concat ", " (map Json.dumps (x :: l)) +:+ rest = String c s /\
    Decoder.is_ws c = false /\ Ascii.eqb c "]" = false.
Proof.
  destruct (dumps_head x) as (c & s & E & H).
  destruct l as [|y l]; cbn [map].
  - cbn [String.concat]. rewrite E, str_app_cons. eauto.
  - rewrite concat_cons2, E, !str_app_cons. eauto.
Qed.

Lemma concat_items_head x d rest :
  exists s, String.concat ", " (map Json.item (map dumps_item (x :: d))) +:+ rest
            = String Json.dquote s.
Proof.
  destruct d as [|y d]; cbn [map].
  - cbn [String.concat]. rewrite item_dumps. eauto.
  - rewrite concat_cons2, !str_app_assoc, item_dumps. eauto.
Qed.

Lemma canonical_Dict d :
  canonical (Json.Dict d) = Json.Dict (map canonical_item (Json.sort_items d)).
Proof.
  cbn [canonical]. f_equal. apply (sort_items_map canonical).
Qed.

Lemma dumps_Dict_sorted d :
  Json.dumps (Json.Dict d)
  = "{" +:+ String.concat ", " (map Json.item (map dumps_item (Json.sort_items d))) +:+ "}".
Proof.
  rewrite dumps_Dict, (sort_items_map Json.dumps). reflexivity.
Qed.

(** Every well-formed value decodes. *)
Lemma decodes_well_formed v : well_formed v -> decodes v.
Proof.
  induction v as [| b | z | s | l IH | d IH] using value_induction; intros W;
    try (apply decodes_scalar; exact I).
  - assert (Hl : Forall decodes l).
    { inversion W as [| | | | l' Wl|]; subst.
      apply Forall_forall. intros x Hx.
      rewrite Forall_forall in IH, Wl. apply IH; [exact Hx|apply Wl, Hx]. }
    intros fuel rest Hf D. cbn [cost] in Hf. fold (items_cost l) in Hf.
    destruct fuel as [|fuel]; [lia|].
    rewrite dumps_List, !str_app_assoc.
    change ("[" +:+ ?t) with (String "[" t). change ("]" +:+ ?t) with (String "]" t).
    destruct l as [|x l]; [reflexivity|].
    destruct (concat_dumps_head x l (String "]" rest)) as (c & s & E & Hw & Hc).
    cbn [Decoder.scan_once Ascii.eqb Bool.eqb Json.dquote].
    rewrite E. rewrite (skip_ws_head c s Hw), Hc. rewrite <- E.
    rewrite (scan_items_dumps (x :: l)); [reflexivity|discriminate|exact Hl|lia].
  - assert (Hd : Forall (fun kv => decodes (snd kv)) (Json.sort_items d)).
    { apply Forall_sort_items.
      inversion W as [| | | | |d' Wn Wd]; subst.
      apply Forall_forall. intros x Hx.
      rewrite Forall_forall in IH, Wd. apply IH; [exact Hx|apply Wd, Hx]. }
    assert (Hn : NoDup (map fst (map canonical_item (Json.sort_items d)))).
    { inversion W as [| | | | |d' Wn Wd]; subst.
      rewrite map_map. cbn [canonical_item fst]. apply sort_items_nodup, Wn. }
    intros fuel rest Hf D. cbn [cost] in Hf. fold (members_cost d) in Hf.
    unfold members_cost in Hf. rewrite <- sort_items_cost in Hf.
    fold (members_cost (Json.sort_items d)) in Hf.
    destruct fuel as [|fuel]; [lia|].
    rewrite dumps_Dict_sorted, canonical_Dict, !str_app_assoc.
    change ("{" +:+ ?t) with (String "{" t). change ("}" +:+ ?t) with (String "}" t).
    destruct (Json.sort_items d) as [|x X]; [reflexivity|].
    destruct (concat_items_head x X (String "}" rest)) as (s & E).
    cbn [Decoder.scan_once Ascii.eqb Bool.eqb Json.dquote].
    rewrite E. rewrite (skip_ws_head Json.dquote s eq_refl).
    change (Ascii.eqb Json.dquote "}") with false. cbv iota. rewrite <- E.
    rewrite (scan_members_dumps (x :: X)); [|discriminate|exact Hd|lia].
    rewrite dict_of_pairs_nodup by exact Hn. reflexivity.
Qed.


(** ** The fuel [loads] gives is enough *)

Lemma length_concat_items l :
  Forall (fun x => (cost x <= String.length (Json.dumps x))%nat) l ->
  (items_cost l <= String.length (String.concat ", " (map Json.dumps l)) + 1)%nat.
Proof.
  induction 1 as [|x l Hx Hl IH]; [simpl; lia|].
  unfold items_cost in *. cbn [foldr]. destruct l as [|y l].
  - cbn [map String.concat foldr]. lia.
  - cbn [map]. rewrite concat_cons2, !str_length_app. cbn [map] in IH.
    simpl String.length at 2. lia.
Qed.

Lemma length_concat_members d :
  Forall (fun kv => (cost (snd kv) <= String.length (Json.dumps (snd kv)))%nat) d ->
  (members_cost d
   <= String.length (String.concat ", " (map Json.item (map dumps_item d))) + 1)%nat.
Proof.
  assert (I : forall kv, (String.length (Json.dumps (snd kv))
                          <= String.length (Json.item (dumps_item kv)))%nat).
  { intros kv. unfold Json.item, dumps_item. cbn [fst snd]. rewrite !str_length_app. lia. }
  induction 1 as [|x d Hx Hd IH]; [simpl; lia|].
  unfold members_cost in *. cbn [foldr]. specialize (I x). destruct d as [|y d].
  - cbn [map String.concat foldr]. lia.
  - cbn [map]. rewrite concat_cons2, !str_length_app. cbn [map] in IH.
    simpl String.length at 2. lia.
Qed.

Lemma cost_le_length v : (cost v <= String.length (Json.dumps v))%nat.
Proof.
  induction v as [| b | z | s | l IH | d IH] using value_induction.
  - simpl. lia.
  - destruct b; simpl; lia.
  - destruct (str_of_int_head z) as (c & s & E & _).
    change (Json.dumps (Json.Int z)) with (Py.str_of_int z). rewrite E. simpl. lia.
  - change (Json.dumps (Json.Str s)) with (Json.encode_str s).
    unfold Json.encode_str. simpl. lia.
  - rewrite dumps_List, !str_length_app. cbn [cost]. fold (items_cost l).
    pose proof (length_concat_items l IH). cbn [String.length]. lia.
  - rewrite dumps_Dict_sorted, !str_length_app. cbn [cost]. fold (members_cost d).
    unfold members_cost. rewrite <- sort_items_cost. fold (members_cost (Json.sort_items d)).
    pose proof (length_concat_members (Json.sort_items d) (Forall_sort_items _ _ IH)).
    cbn [String.length]. lia.
Qed.


(** ** The values of a record are well formed *)

Lemma well_formed_record t n ts p :
  map_Forall (fun _ v => well_formed v) t ->
  map_Forall (fun _ v => well_formed v) (record t n ts p).
Proof.
  intros H. unfold record. repeat apply map_Forall_insert_2; try constructor. exact H.
Qed.

Lemma well_formed_template extra u host ws pid start :
  map_Forall (fun _ v => well_formed v) extra ->
  map_Forall (fun _ v => well_formed v) (extra ∪ builtin_fields u host ws pid start).
Proof.
  intros H k v Hk. apply lookup_union_Some_raw in Hk as [Hk|[_ Hk]].
  - exact (H k v Hk).
  - revert k v Hk. unfold builtin_fields.
    repeat apply map_Forall_insert_2; try constructor. apply map_Forall_empty.
Qed.

Lemma well_formed_dict (d : gmap string Json.value) :
  map_Forall (fun _ v => well_formed v) d -> well_formed (Json.Dict (map_to_list d)).
Proof.
  intros H. constructor.
  - apply NoDup_fst_map_to_list.
  - apply map_Forall_to_list in H. eapply Forall_impl; [exact H|].
    intros [k v] Hv. exact Hv.
Qed.


(** * The claims *)

(** C1 (the code departs from it). At the failing input of the
    specification's second scenario (two events on 2024-01-01, the third on
    2024-01-02) the third call closes the file and then raises [TypeError]
    at [current_path.replace(".open")]: the file of the first day keeps its
    [.open] suffix and its two records, no file for the second day exists,
    and the third record is written nowhere. *)
Theorem rotation_at_day_boundary_raises :
  let s0 := scenario clock_two_days 100 ∅ in
  let r := deliver clock_two_days three_events s0 in
  let first_day := "/tmp/rec/2024-01-01_feedA_hostX.json.open" in
  fst r = Py.Raise Py.TypeError /\
  dom (disk (snd r)) = {[ first_day ]} /\
  disk (snd r) !! first_day
    = Some (concat_lines (map line_of (records clock_two_days three_events s0))) /\
  length (records clock_two_days three_events s0) = 2%nat /\
  disk (snd r) !! "/tmp/rec/2024-01-01_feedA_hostX.json" = None /\
  disk (snd r) !! "/tmp/rec/2024-01-02_feedA_hostX.json.open" = None /\
  data_file (self (snd r)) = {| File.name := first_day; File.closed := true |}.
Proof. cbv zeta. repeat apply conj; vm_compute; reflexivity. Qed.

(** C2. In a session the counter starts at 0, so that the [k]-th record
    written (counting from 1) carries [msg_seq_no = k] and is the record of
    the [k]-th event delivered; the records are the lines appended to the
    file, in order; after the run the counter is the number of events
    handed to [received_message]; and [closed] does not touch it. *)
Theorem sequence_numbers clock pid dd u imo dfl host ws hb extra disk0 t0 msgs :
  let s0 := snd (__init__ clock pid dd u imo dfl host ws hb extra (boot disk0 t0)) in
  let rs := records clock msgs s0 in
  let r := deliver clock msgs s0 in
  msg_seq_no (self s0) = 0 /\
  (forall k d, rs !! k = Some d ->
     d !! "msg_seq_no" = Some (Json.Int (Z.of_nat k + 1)) /\
     exists m, msgs !! k = Some m /\
       d !! "websocket_msg" = Some (Json.Str (remove_char Py.newline m))) /\
  disk (snd r) !! File.name (data_file (self s0))
    = Some (content s0 +:+ concat_lines (map line_of rs)) /\
  msg_seq_no (self (snd r))
    = Z.of_nat (length rs) + match fst r with Py.Ok _ => 0 | Py.Raise _ => 1 end /\
  (forall code reason,
     msg_seq_no (self (snd (closed code reason (snd r)))) = msg_seq_no (self (snd r))).
Proof.
  cbv zeta.
  pose proof (init_live clock pid dd u imo dfl host ws hb extra disk0 t0) as L.
  set (s0 := snd (__init__ clock pid dd u imo dfl host ws hb extra (boot disk0 t0))) in *.
  assert (Z0 : msg_seq_no (self s0) = 0).
  { subst s0. rewrite init_eq. reflexivity. }
  repeat apply conj.
  - exact Z0.
  - intros k d H. apply records_lookup in H as (m & Hm & ->).
    rewrite record_msg_seq_no, record_websocket_msg, Z0. split; [f_equal; f_equal; lia|].
    exists m. auto.
  - rewrite (deliver_disk clock msgs s0 L). apply lookup_insert_eq.
  - rewrite deliver_msg_seq_no, Z0. lia.
  - intros code reason. reflexivity.
Qed.

(** C3 (the code departs from it, by the defect of C1). The state after the
    two events of 2024-01-01 receives an event on 2024-01-02: the first ten
    characters of the timestamp differ from those of the file's name, and
    the call raises [TypeError] with the disk as it was: no rotation. *)
Theorem rotation_decision_at_day_boundary :
  let s2 := snd (deliver clock_two_days (take 2 three_events)
                   (scenario clock_two_days 100 ∅)) in
  let r := received_message clock_two_days "c" s2 in
  Py.slice_to 10 (Datetime.strftime ts_format (clock_two_days (ticks s2))) = "2024-01-02" /\
  Py.slice_to 10 (Py.os_path_basename (File.name (data_file (self s2)))) = "2024-01-01" /\
  fst r = Py.Raise Py.TypeError /\
  disk (snd r) = disk s2 /\
  File.closed (data_file (self (snd r))) = true.
Proof. cbv zeta. repeat apply conj; vm_compute; reflexivity. Qed.

(** C4. Whatever a call goes on to do, the payload item it assigns is the
    event text without its newline characters (nothing is put in their
    place). A call that returns has appended to the file one line: the
    serialised record, which has no newline character, and one newline after
    it. So has every line a run writes. *)
Theorem payload_newlines_stripped clock m s msgs :
  let r := received_message clock m s in
  let payload := remove_char Py.newline m in
  Py.str_replace m [String Py.newline EmptyString; EmptyString] = Py.Ok payload /\
  full_message (self (snd r)) !! "websocket_msg" = Some (Json.Str payload) /\
  Py.count_char Py.newline payload = 0%nat /\
  (forall c, c <> Py.newline -> Py.count_char c payload = Py.count_char c m) /\
  (fst r = Py.Ok tt ->
   exists body,
     body = Json.dumps_dict (full_message (self (snd r))) /\
     Py.count_char Py.newline body = 0%nat /\
     disk (snd r)
     = <[File.name (data_file (self s)) :=
           content s +:+ body +:+ String Py.newline EmptyString]> (disk s)) /\
  Forall (fun d => Py.count_char Py.newline (Json.dumps_dict d) = 0%nat /\
                   Py.count_char Py.newline (line_of d) = 1%nat)
    (records clock msgs s).
Proof.
  cbv zeta. refine (conj _ (conj _ (conj _ (conj _ (conj _ _))))).
  - unfold Py.str_replace. rewrite replace_newline. reflexivity.
  - rewrite received_message_full_message. apply record_websocket_msg.
  - apply remove_char_count.
  - intros c Hc. induction m as [|d m IH]; [reflexivity|]. simpl.
    destruct (Ascii.eqb_spec d Py.newline) as [->|Hd].
    + destruct (Ascii.eqb_spec Py.newline c) as [E|_]; [congruence|]. exact IH.
    + simpl. rewrite IH. reflexivity.
  - intros H. destruct (received_message clock m s) as [[[]|e] s'] eqn:E; [|discriminate].
    exists (Json.dumps_dict (full_message (self s'))). cbn [snd].
    split; [reflexivity|]. split; [apply dumps_no_newline|].
    apply received_message_ok in E as (_ & _ & ->). reflexivity.
  - apply Forall_forall. intros d _. apply line_of_newlines.
Qed.

(** C5. [closed] returns with the file object closed and nothing else
    changed: the disk (so no rename), the name of the file, the counter, the
    template and every other attribute are as before. At the end of a
    session the name still ends in [.open] and the file is on the disk under
    that name. *)
Theorem closed_does_not_finalize clock code reason s :
  let r := closed code reason s in
  fst r = Py.Ok tt /\
  disk (snd r) = disk s /\
  File.name (data_file (self (snd r))) = File.name (data_file (self s)) /\
  File.closed (data_file (self (snd r))) = true /\
  self (snd r) = set_data_file (data_file (self (snd r))) (self s) /\
  ticks (snd r) = ticks s /\ outbox (snd r) = outbox s /\
  (forall pid dd u imo dfl host ws hb extra disk0 t0 msgs,
     s = snd (deliver clock msgs
                (snd (__init__ clock pid dd u imo dfl host ws hb extra (boot disk0 t0)))) ->
     File.name (data_file (self (snd r))) = filename_for dd ws host (clock t0) /\
     ends_with ".open" (File.name (data_file (self (snd r)))) = true /\
     is_Some (disk (snd r) !! File.name (data_file (self (snd r))))).
Proof.
  cbv zeta. repeat apply conj; try reflexivity.
  intros pid dd u imo dfl host ws hb extra disk0 t0 msgs ->.
  change (File.name (data_file (self (snd (closed code reason ?x)))))
    with (File.name (data_file (self x))).
  change (disk (snd (closed code reason ?x))) with (disk x).
  rewrite deliver_name.
  pose proof (init_live clock pid dd u imo dfl host ws hb extra disk0 t0) as L.
  rewrite (deliver_disk _ _ _ L).
  rewrite lookup_insert_eq.
  rewrite init_eq. cbn [snd self data_file File.name].
  repeat split; [apply filename_for_open|eauto].
Qed.




(** C7. For every key other than the three per-record keys, every record
    written in a session, and the template after the run, hold what the
    template held at construction: the caller's value if the extra data has
    the key, the built-in value otherwise. The attributes of the object other
    than the counter, the file and the template do not change either, and a
    record has exactly the keys of the template. *)
Theorem constant_fields_stable clock pid dd u imo dfl host ws hb extra disk0 t0 msgs key :
  key <> "msg_seq_no" -> key <> "ts_utc" -> key <> "websocket_msg" ->
  let s0 := snd (__init__ clock pid dd u imo dfl host ws hb extra (boot disk0 t0)) in
  let template := full_message (self s0) in
  let s' := snd (deliver clock msgs s0) in
  template !! key
    = match extra !! key with
      | Some v => Some v
      | None =>
          builtin_fields u host ws pid (Datetime.strftime ts_format (clock (S t0))) !! key
      end /\
  (forall d, d ∈ records clock msgs s0 -> d !! key = template !! key /\ dom d = dom template) /\
  full_message (self s') !! key = template !! key /\
  same_config (self s0) (self s').
Proof.
  intros K1 K2 K3. cbv zeta. refine (conj _ (conj _ (conj _ _))).
  - rewrite init_eq. cbn [snd self full_message].
    rewrite lookup_union. destruct (extra !! key), (builtin_fields _ _ _ _ _ !! key); reflexivity.
  - intros d [k H]%list_elem_of_lookup. apply records_lookup in H as (m & _ & ->).
    split; [apply record_other; assumption|].
    apply record_dom; rewrite init_eq; cbn [snd self full_message];
      rewrite lookup_union; unfold builtin_fields.
    + destruct (extra !! "msg_seq_no"); simplify_map_eq; eauto.
    + destruct (extra !! "ts_utc"); simplify_map_eq; eauto.
    + destruct (extra !! "websocket_msg"); simplify_map_eq; eauto.
  - apply deliver_full_message_other; assumption.
  - apply deliver_config.
Qed.


(** C7 at the one-day scenario, for the key [url]. *)
Lemma constant_fields_stable_witness :
  ("url" <> "msg_seq_no" /\ "url" <> "ts_utc" /\ "url" <> "websocket_msg") /\
  length (records clock_one_day three_events (scenario clock_one_day 100 ∅)) = 3%nat /\
  forall d, d ∈ records clock_one_day three_events (scenario clock_one_day 100 ∅) ->
    d !! "url" = Some (Json.Str "wss://feed.example/ws").
Proof.
  assert (K1 : "url" <> "msg_seq_no") by discriminate.
  assert (K2 : "url" <> "ts_utc") by discriminate.
  assert (K3 : "url" <> "websocket_msg") by discriminate.
  split; [auto|]. split; [vm_compute; reflexivity|].
  intros d Hd.
  pose proof (constant_fields_stable clock_one_day 4242 "/tmp/rec" "wss://feed.example/ws"
                ["subscribe"] 100 "hostX" "feedA" 30 ∅ ∅ 0%nat three_events "url" K1 K2 K3)
    as (T & R & _).
  destruct (R d Hd) as [Hk _].
  refine (eq_trans Hk (eq_trans T _)). vm_compute. reflexivity.
Defined.

(** C8. For a clock reading within the ranges of a [datetime] and of year
    1000 or later, [generate_filename] returns
    [<data_dir>/<YYYY>-<MM>-<DD>_<ws_name>_<hostname>.json.open], where the
    three groups are the year, month and day of the reading in 4, 2 and 2
    decimal digits, and takes one clock reading. The constructor opens the
    file under the name generated for its reading, and no run of
    [received_message] changes the name of the recorder's file. *)
Theorem generate_filename_path clock pid dd u imo dfl host ws hb extra disk0 t0 msgs :
  Datetime.four_digit (clock t0) ->
  let now := clock t0 in
  let yyyy := Py.str_of_N (Datetime.year now) in
  let mm := Datetime.zfill 2 (Datetime.month now) in
  let dd_ := Datetime.zfill 2 (Datetime.day now) in
  let date_part := yyyy +:+ "-" +:+ mm +:+ "-" +:+ dd_ in
  let path := dd +:+ "/" +:+ date_part +:+ "_" +:+ ws +:+ "_" +:+ host +:+ ".json.open" in
  let s0 := snd (__init__ clock pid dd u imo dfl host ws hb extra (boot disk0 t0)) in
  (String.length yyyy = 4%nat /\ String.length mm = 2%nat /\ String.length dd_ = 2%nat /\
   all_chars is_digit yyyy = true /\ all_chars is_digit mm = true /\
   all_chars is_digit dd_ = true /\
   digits_value 0 yyyy = Datetime.year now /\ digits_value 0 mm = Datetime.month now /\
   digits_value 0 dd_ = Datetime.day now /\
   String.length date_part = 10%nat) /\
  (forall s, ticks s = t0 -> data_dir (self s) = dd -> ws_name (self s) = ws ->
     hostname (self s) = host ->
     generate_filename clock s
     = (Py.Ok path,
        {| self := self s; disk := disk s; ticks := S t0; outbox := outbox s |})) /\
  File.name (data_file (self s0)) = path /\
  is_Some (disk s0 !! path) /\
  File.name (data_file (self (snd (deliver clock msgs s0)))) = path.
Proof.
  intros V. cbv zeta.
  assert (P : filename_for dd ws host (clock t0)
              = dd +:+ "/" +:+
                  (Py.str_of_N (Datetime.year (clock t0)) +:+ "-" +:+
                   Datetime.zfill 2 (Datetime.month (clock t0)) +:+ "-" +:+
                   Datetime.zfill 2 (Datetime.day (clock t0)))
                  +:+ "_" +:+ ws +:+ "_" +:+ host +:+ ".json.open").
  { unfold filename_for. rewrite date_part_eq. reflexivity. }
  pose proof V as [(Hy & Hm & Hd & _) Y].
  refine (conj _ (conj _ (conj _ (conj _ _)))).
  - rewrite !zfill_digits, !zfill_value, str_of_N_digits, str_of_N_value.
    rewrite <- date_part_eq, (date_part_length _ V).
    rewrite str_of_N_length4 by lia.
    rewrite !zfill_length by (simpl; lia). repeat split.
  - intros s T D W H. rewrite generate_filename_eq, T, D, W, H, P. reflexivity.
  - rewrite init_eq. cbn [snd self data_file File.name]. exact P.
  - pose proof (init_live clock pid dd u imo dfl host ws hb extra disk0 t0) as [_ L].
    rewrite init_eq in L |- *. cbn [snd self data_file File.name disk] in L |- *.
    rewrite <- P. exact L.
  - rewrite deliver_name, init_eq. cbn [snd self data_file File.name]. exact P.
Qed.


(** C8 at the one-day scenario. *)
Lemma generate_filename_path_witness :
  Datetime.four_digit (clock_one_day 0) /\
  File.name (data_file (self (snd (deliver clock_one_day three_events
                                     (scenario clock_one_day 100 ∅)))))
  = "/tmp/rec/2024-01-01_feedA_hostX.json.open".
Proof.
  assert (V : Datetime.four_digit (clock_one_day 0))
    by (vm_compute; repeat split; discriminate).
  split; [exact V|].
  pose proof (generate_filename_path clock_one_day 4242 "/tmp/rec" "wss://feed.example/ws"
                ["subscribe"] 100 "hostX" "feedA" 30 ∅ ∅ 0%nat three_events V)
    as (_ & _ & _ & _ & H).
  rewrite H. vm_compute. reflexivity.
Defined.

(** C9. Two sessions that differ only in [data_file_lines] end with the same
    outcome, the same disk and the same records, and with the same object
    but for that attribute; [lines_counter] is 0 after any run. *)
Theorem data_file_lines_unused clock pid dd u imo a b host ws hb extra disk0 t0 msgs :
  let sa := snd (__init__ clock pid dd u imo a host ws hb extra (boot disk0 t0)) in
  let sb := snd (__init__ clock pid dd u imo b host ws hb extra (boot disk0 t0)) in
  let ra := deliver clock msgs sa in
  let rb := deliver clock msgs sb in
  fst rb = fst ra /\
  disk (snd rb) = disk (snd ra) /\
  records clock msgs sb = records clock msgs sa /\
  snd rb = with_data_file_lines b (snd ra) /\
  lines_counter (self (snd ra)) = 0 /\
  data_file_lines (self (snd ra)) = a.
Proof.
  cbv zeta.
  assert (E : snd (__init__ clock pid dd u imo b host ws hb extra (boot disk0 t0))
              = with_data_file_lines b
                  (snd (__init__ clock pid dd u imo a host ws hb extra (boot disk0 t0)))).
  { rewrite !init_eq. reflexivity. }
  rewrite E.
  destruct (deliver_data_file_lines clock msgs b
              (snd (__init__ clock pid dd u imo a host ws hb extra (boot disk0 t0))))
    as [-> ->].
  cbn [fst snd]. refine (conj _ (conj _ (conj _ (conj _ (conj _ _))))); try reflexivity.
  - rewrite deliver_lines_counter, init_eq. reflexivity.
  - pose proof (deliver_config clock msgs
                  (snd (__init__ clock pid dd u imo a host ws hb extra (boot disk0 t0))))
      as (_ & _ & -> & _).
    rewrite init_eq. reflexivity.
Qed.

(** C10. An extra item under one of the three per-record keys is in the
    template after construction; every call of [received_message], whatever
    it goes on to do, assigns the three keys from the current cycle; so the
    [k]-th record of a session holds the counter, the timestamp of its own
    clock reading and the stripped payload, whatever the extra data was. *)
Theorem per_record_keys_overwritten clock pid dd u imo dfl host ws hb extra disk0 t0 msgs
    key v :
  key = "msg_seq_no" \/ key = "ts_utc" \/ key = "websocket_msg" ->
  extra !! key = Some v ->
  let s0 := snd (__init__ clock pid dd u imo dfl host ws hb extra (boot disk0 t0)) in
  full_message (self s0) !! key = Some v /\
  (forall s m,
     let o' := self (snd (received_message clock m s)) in
     full_message o' !! "msg_seq_no" = Some (Json.Int (msg_seq_no (self s) + 1)) /\
     full_message o' !! "ts_utc"
       = Some (Json.Str (Datetime.strftime ts_format (clock (ticks s)))) /\
     full_message o' !! "websocket_msg" = Some (Json.Str (remove_char Py.newline m))) /\
  (forall k d, records clock msgs s0 !! k = Some d ->
     exists m, msgs !! k = Some m /\
       d !! "msg_seq_no" = Some (Json.Int (Z.of_nat k + 1)) /\
       d !! "ts_utc"
         = Some (Json.Str (Datetime.strftime ts_format (clock (S (S t0) + k)%nat))) /\
       d !! "websocket_msg" = Some (Json.Str (remove_char Py.newline m))).
Proof.
  intros K E. cbv zeta. refine (conj _ (conj _ _)).
  - rewrite init_eq. cbn [snd self full_message].
    apply lookup_union_Some_l. exact E.
  - intros s m. rewrite received_message_full_message.
    rewrite record_msg_seq_no, record_ts_utc, record_websocket_msg. auto.
  - intros k d H. apply records_lookup in H as (m & Hm & ->).
    exists m. rewrite record_msg_seq_no, record_ts_utc, record_websocket_msg.
    rewrite init_eq. cbn [snd self msg_seq_no ticks].
    split; [exact Hm|]. split; [f_equal; f_equal; lia|]. split; reflexivity.
Qed.

(** C10 at the one-day scenario, with an extra item under [ts_utc]. *)
Lemma per_record_keys_overwritten_witness :
  let extra : gmap string Json.value := {[ "ts_utc" := Json.Str "never" ]} in
  let s0 := scenario clock_one_day 100 extra in
  extra !! "ts_utc" = Some (Json.Str "never") /\
  full_message (self s0) !! "ts_utc" = Some (Json.Str "never") /\
  length (records clock_one_day three_events s0) = 3%nat /\
  forall k d, records clock_one_day three_events s0 !! k = Some d ->
    d !! "ts_utc"
    = Some (Json.Str (Datetime.strftime ts_format (clock_one_day (2 + k)%nat))).
Proof.
  cbv zeta.
  assert (E : ({[ "ts_utc" := Json.Str "never" ]} : gmap string Json.value) !! "ts_utc"
              = Some (Json.Str "never")) by (vm_compute; reflexivity).
  pose proof (per_record_keys_overwritten clock_one_day 4242 "/tmp/rec"
                "wss://feed.example/ws" ["subscribe"] 100 "hostX" "feedA" 30
                {[ "ts_utc" := Json.Str "never" ]} ∅ 0%nat three_events "ts_utc"
                (Json.Str "never") (or_intror (or_introl eq_refl)) E)
    as (T & _ & R).
  split; [exact E|]. split; [exact T|]. split; [vm_compute; reflexivity|].
  intros k d H. destruct (R k d H) as (m & _ & _ & Hts & _). exact Hts.
Defined.

(** * Further properties *)

(** ** The socket *)

Lemma for_each_send l s :
  for_each l send s
  = (Py.Ok tt, {| self := self s; disk := disk s; ticks := ticks s; outbox := outbox s ++ l |}).
Proof.
  revert s. induction l as [|x l IH]; intros s.
  - simpl. unfold ret. rewrite app_nil_r. destruct s; reflexivity.
  - cbn [for_each]. unfold bind. cbn [send]. rewrite IH. cbn [self disk ticks outbox].
    rewrite <- app_assoc. reflexivity.
Qed.

(** X1. [opened] sends the initial messages, each once and in the order of
    the list, and does nothing else; right after construction the socket
    has been sent exactly the list given to the constructor (nothing when
    it is empty). *)
Theorem opened_sends_initial_messages clock pid dd u imo dfl host ws hb extra disk0 t0 :
  let s0 := snd (__init__ clock pid dd u imo dfl host ws hb extra (boot disk0 t0)) in
  (forall s,
     opened s
     = (Py.Ok tt,
        {| self := self s; disk := disk s; ticks := ticks s;
           outbox := outbox s ++ initial_msg_out (self s) |})) /\
  outbox s0 = [] /\
  outbox (snd (opened s0)) = imo.
Proof.
  cbv zeta.
  assert (H : forall s,
             opened s
             = (Py.Ok tt,
                {| self := self s; disk := disk s; ticks := ticks s;
                   outbox := outbox s ++ initial_msg_out (self s) |})).
  { intros s. unfold opened, bind, get_self. cbn [fst snd].
    destruct (decide (0 < length (initial_msg_out (self s)))%nat) as [L|L].
    - apply for_each_send.
    - destruct (initial_msg_out (self s)) as [|x l]; [|simpl in L; lia].
      unfold ret. rewrite app_nil_r. destruct s; reflexivity. }
  split; [exact H|]. rewrite H, init_eq. split; reflexivity.
Qed.

(** ** After the file is closed *)


(** X2. Once the file object is closed (by [closed], or by a rotation that
    failed), a call of [received_message] raises, [ValueError] from the
    write or [TypeError] from the rotation branch, and leaves the disk as it
    was and the file closed; it still takes a sequence number. So a run on a
    closed file records nothing. *)
Theorem closed_file_records_nothing clock m msgs s :
  File.closed (data_file (self s)) = true ->
  let r := received_message clock m s in
  (fst r = Py.Raise Py.ValueError \/ fst r = Py.Raise Py.TypeError) /\
  disk (snd r) = disk s /\
  File.closed (data_file (self (snd r))) = true /\
  msg_seq_no (self (snd r)) = msg_seq_no (self s) + 1 /\
  records clock msgs s = [] /\
  disk (snd (deliver clock msgs s)) = disk s.
Proof.
  intros C. cbv zeta.
  assert (R : forall m', exists e s',
             received_message clock m' s = (Py.Raise e, s') /\ disk s' = disk s /\
             (e = Py.ValueError \/ e = Py.TypeError) /\
             File.closed (data_file (self s')) = true /\
             msg_seq_no (self s') = msg_seq_no (self s) + 1).
  { intros m'. rewrite received_message_eq. cbv zeta. rewrite C.
    destruct (decide (same_day clock s)); eexists _, _; (split; [reflexivity|]);
      cbn [disk self]; auto 10. }
  destruct (R m) as (e & s' & -> & D & E & F & N). cbn [fst snd].
  refine (conj _ (conj D (conj F (conj N (conj _ _))))).
  - destruct E as [-> | ->]; auto.
  - destruct msgs as [|m' msgs]; [reflexivity|].
    cbn [records]. destruct (R m') as (e' & s'' & -> & _). reflexivity.
  - destruct msgs as [|m' msgs]; [reflexivity|].
    rewrite deliver_cons. destruct (R m') as (e' & s'' & -> & D' & _). exact D'.
Qed.

Lemma closed_file_records_nothing_witness :
  let s := snd (closed 1000 "bye" (scenario clock_one_day 100 ∅)) in
  File.closed (data_file (self s)) = true /\
  fst (received_message clock_one_day "a" s) = Py.Raise Py.ValueError /\
  records clock_one_day three_events s = [].
Proof.
  cbv zeta.
  assert (C : File.closed (data_file (self (snd (closed 1000 "bye"
                (scenario clock_one_day 100 ∅))))) = true) by reflexivity.
  pose proof (closed_file_records_nothing clock_one_day "a" three_events _ C)
    as (_ & _ & _ & _ & R & _).
  split; [exact C|]. split; [vm_compute; reflexivity|exact R].
Defined.

(** ** The disk and the keys *)

(** The file of a session after a run. *)
Lemma session_disk clock pid dd u imo dfl host ws hb extra disk0 t0 msgs :
  let path := filename_for dd ws host (clock t0) in
  let s0 := snd (__init__ clock pid dd u imo dfl host ws hb extra (boot disk0 t0)) in
  disk (snd (deliver clock msgs s0))
  = <[path := default EmptyString (disk0 !! path)
                +:+ concat_lines (map line_of (records clock msgs s0))]>
      (touch path disk0).
Proof.
  cbv zeta.
  pose proof (init_live clock pid dd u imo dfl host ws hb extra disk0 t0) as L.
  rewrite (deliver_disk _ _ _ L).
  assert (N : File.name (data_file (self (snd (__init__ clock pid dd u imo dfl host ws hb
                extra (boot disk0 t0))))) = filename_for dd ws host (clock t0)).
  { rewrite init_eq. reflexivity. }
  rewrite N. unfold content. rewrite N, init_eq. cbn [snd disk]. f_equal.
  unfold touch. destruct (disk0 !! filename_for dd ws host (clock t0)) eqn:E.
  - rewrite E. reflexivity.
  - rewrite lookup_insert_eq. reflexivity.
Qed.

(** X3. A session writes to one file only, the one named at construction:
    what that file held before (the recorder opens it for appending) is
    kept and the records follow it, and every other path of the disk is as
    it was. *)
Theorem session_touches_one_file clock pid dd u imo dfl host ws hb extra disk0 t0 msgs :
  let path := filename_for dd ws host (clock t0) in
  let s0 := snd (__init__ clock pid dd u imo dfl host ws hb extra (boot disk0 t0)) in
  let final := disk (snd (deliver clock msgs s0)) in
  final !! path
    = Some (default EmptyString (disk0 !! path)
              +:+ concat_lines (map line_of (records clock msgs s0))) /\
  (forall p, p <> path -> final !! p = disk0 !! p).
Proof.
  cbv zeta. rewrite session_disk. cbv zeta. split.
  - apply lookup_insert_eq.
  - intros p Hp. rewrite lookup_insert_ne by congruence. unfold touch.
    destruct (disk0 !! filename_for dd ws host (clock t0)); [reflexivity|].
    apply lookup_insert_ne. congruence.
Qed.

(** X4. Every record of a session has exactly the eight built-in keys and
    the keys of the extra data. *)
Theorem record_keys clock pid dd u imo dfl host ws hb extra disk0 t0 msgs :
  let s0 := snd (__init__ clock pid dd u imo dfl host ws hb extra (boot disk0 t0)) in
  Forall (fun d =>
            dom d
            = dom extra ∪ {[ "msg_seq_no"; "url"; "machine_id"; "pid"; "ws_name";
                             "session_start"; "ts_utc"; "websocket_msg" ]})
    (records clock msgs s0).
Proof.
  cbv zeta. apply Forall_forall. intros d [k H]%list_elem_of_lookup.
  apply records_lookup in H as (m & _ & ->).
  rewrite init_eq. cbn [snd self full_message].
  unfold record, builtin_fields.
  rewrite !dom_insert_L, dom_union_L, !dom_insert_L, dom_empty_L.
  apply set_eq. intros x.
  rewrite !elem_of_union, !elem_of_singleton, elem_of_empty. tauto.
Qed.

Lemma remove_char_absent c s : Py.count_char c s = 0%nat -> remove_char c s = s.
Proof.
  induction s as [|d s IH]; [reflexivity|]. simpl.
  destruct (Ascii.eqb d c); [discriminate|]. intros H. rewrite IH by exact H. reflexivity.
Qed.

Lemma remove_char_length c s :
  (String.length (remove_char c s) + Py.count_char c s = String.length s)%nat.
Proof.
  induction s as [|d s IH]; [reflexivity|]. simpl.
  destruct (Ascii.eqb d c); simpl; lia.
Qed.

(** The recorded payload is shorter than the event text by the number of
    its newline characters; a text without a newline is recorded as it is,
    whatever else it holds (a carriage return, a quote, a backslash). *)
Lemma payload_kept_but_newlines clock m s :
  let r := received_message clock m s in
  (exists p, full_message (self (snd r)) !! "websocket_msg" = Some (Json.Str p) /\
     (String.length p + Py.count_char Py.newline m = String.length m)%nat) /\
  (Py.count_char Py.newline m = 0%nat ->
   full_message (self (snd r)) !! "websocket_msg" = Some (Json.Str m)).
Proof.
  cbv zeta. rewrite received_message_full_message, record_websocket_msg. split.
  - eexists. split; [reflexivity|apply remove_char_length].
  - intros H. rewrite remove_char_absent by exact H. reflexivity.
Qed.

(** ** Calendar dates *)

Lemma str_app_inv s1 t1 s2 t2 :
  s1 +:+ t1 = s2 +:+ t2 -> String.length s1 = String.length s2 -> s1 = s2 /\ t1 = t2.
Proof.
  revert s2. induction s1 as [|c s1 IH]; intros [|c2 s2] H L; try discriminate L.
  - auto.
  - rewrite !str_app_cons in H. injection H as -> H. injection L as L.
    destruct (IH s2 H L) as [-> ->]. auto.
Qed.

(** Two runs of digits, each followed by a character that is not a digit. *)
Lemma digits_split s1 s2 c1 c2 t1 t2 :
  all_chars is_digit s1 = true -> all_chars is_digit s2 = true ->
  is_digit c1 = false -> is_digit c2 = false ->
  s1 +:+ String c1 t1 = s2 +:+ String c2 t2 -> s1 = s2 /\ t1 = t2.
Proof.
  intros D1 D2 N1 N2. revert s2 D2.
  induction s1 as [|a s1 IH]; intros [|b s2] D2 E.
  - rewrite !str_app_nil_l in E. injection E as _ E. auto.
  - rewrite str_app_nil_l, str_app_cons in E. injection E as <- _.
    simpl in D2. rewrite N1 in D2. discriminate D2.
  - rewrite str_app_nil_l, str_app_cons in E. injection E as -> _.
    simpl in D1. rewrite N2 in D1. discriminate D1.
  - rewrite !str_app_cons in E. injection E as -> E.
    simpl in D1, D2. apply andb_prop in D1 as [_ D1]. apply andb_prop in D2 as [_ D2].
    destruct (IH D1 s2 D2 E) as [-> ->]. auto.
Qed.

(** The date part determines the date, whatever follows it. *)
Lemma date_part_inv d1 d2 r1 r2 :
  Datetime.valid d1 -> Datetime.valid d2 ->
  Datetime.strftime "%Y-%m-%d" d1 +:+ r1 = Datetime.strftime "%Y-%m-%d" d2 +:+ r2 ->
  same_date d1 d2 /\ r1 = r2.
Proof.
  intros (Hy1 & Hm1 & Hd1 & _) (Hy2 & Hm2 & Hd2 & _) H. rewrite !date_part_eq in H.
  rewrite !str_app_assoc in H.
  change ("-" +:+ ?t) with (String "-" t) in H.
  apply digits_split in H as [Y H]; try apply str_of_N_digits; try reflexivity.
  apply str_app_inv in H as [M H]; [|rewrite !zfill_length by (simpl; lia); reflexivity].
  change ("-" +:+ ?t) with (String "-" t) in H. injection H as H.
  apply str_app_inv in H as [D R]; [|rewrite !zfill_length by (simpl; lia); reflexivity].
  apply (f_equal (digits_value 0)) in Y, M, D.
  rewrite !str_of_N_value in Y. rewrite !zfill_value in M, D.
  split; [|exact R]. split; [exact Y|]. split; [exact M|exact D].
Qed.

Lemma date_part_same_date d1 d2 :
  Datetime.valid d1 -> Datetime.valid d2 ->
  (Datetime.strftime "%Y-%m-%d" d1 = Datetime.strftime "%Y-%m-%d" d2 <-> same_date d1 d2).
Proof.
  intros V1 V2. split.
  - intros H. apply (date_part_inv d1 d2 EmptyString EmptyString V1 V2).
    rewrite !str_app_nil_r. exact H.
  - intros (Y & M & D). rewrite !date_part_eq, Y, M, D. reflexivity.
Qed.

Lemma digits_no_slash s : all_chars is_digit s = true -> Py.count_char Py.slash s = 0%nat.
Proof. intros H. apply (all_chars_count is_digit); [exact H|reflexivity]. Qed.

Lemma basename_filename_for dd ws host d :
  Py.count_char Py.slash ws = 0%nat -> Py.count_char Py.slash host = 0%nat ->
  Py.os_path_basename (filename_for dd ws host d)
  = Datetime.strftime "%Y-%m-%d" d +:+ "_" +:+ ws +:+ "_" +:+ host +:+ ".json.open".
Proof.
  intros W H. unfold filename_for. apply basename_join.
  rewrite date_part_eq, !count_char_app, W, H.
  rewrite (digits_no_slash _ (str_of_N_digits (Datetime.year d))).
  rewrite (digits_no_slash _ (zfill_digits 2 (Datetime.month d))).
  rewrite (digits_no_slash _ (zfill_digits 2 (Datetime.day d))). reflexivity.
Qed.

(** Under the naming convention the test of the rotation decision is a
    comparison of calendar dates. *)
Lemma same_day_same_date clock dd ws host t0 s :
  Datetime.four_digit (clock t0) -> Datetime.four_digit (clock (ticks s)) ->
  Py.count_char Py.slash ws = 0%nat -> Py.count_char Py.slash host = 0%nat ->
  File.name (data_file (self s)) = filename_for dd ws host (clock t0) ->
  (same_day clock s <-> same_date (clock (ticks s)) (clock t0)).
Proof.
  intros V0 V W H N. unfold same_day.
  rewrite N, (basename_filename_for dd ws host (clock t0) W H).
  rewrite (ts_utc_prefix _ V).
  rewrite (slice_to_app 10 _ _ (date_part_length _ V0)).
  apply date_part_same_date; [apply V|apply V0].
Qed.

(** The outcome of a call on an open file, by the date of its reading. *)
Lemma received_message_by_date clock dd ws host t0 m s :
  Datetime.four_digit (clock t0) -> Datetime.four_digit (clock (ticks s)) ->
  Py.count_char Py.slash ws = 0%nat -> Py.count_char Py.slash host = 0%nat ->
  data_file (self s)
  = {| File.name := filename_for dd ws host (clock t0); File.closed := false |} ->
  let r := received_message clock m s in
  (same_date (clock (ticks s)) (clock t0) -> fst r = Py.Ok tt) /\
  (~ same_date (clock (ticks s)) (clock t0) -> fst r = Py.Raise Py.TypeError).
Proof.
  intros V0 V W H F. cbv zeta.
  assert (N : File.name (data_file (self s)) = filename_for dd ws host (clock t0))
    by (rewrite F; reflexivity).
  pose proof (same_day_same_date clock dd ws host t0 s V0 V W H N) as E.
  rewrite received_message_eq. cbv zeta. rewrite F. cbn [File.closed].
  destruct (decide (same_day clock s)) as [D|D]; cbn [fst].
  - split; [reflexivity|]. intros ND. destruct ND. apply E, D.
  - split; [|reflexivity]. intros SD. destruct D. apply E, SD.
Qed.

(** X5. With no slash in [ws_name] and [hostname] and clock readings within
    the ranges of a [datetime] and of year 1000 or later, a call on the open
    file of a recorder returns exactly when its reading falls on the
    calendar date of the reading the file was named from, and raises
    [TypeError] exactly when it falls on another date. *)
Theorem append_iff_same_date clock dd ws host t0 m s :
  Datetime.four_digit (clock t0) -> Datetime.four_digit (clock (ticks s)) ->
  Py.count_char Py.slash ws = 0%nat -> Py.count_char Py.slash host = 0%nat ->
  data_file (self s)
  = {| File.name := filename_for dd ws host (clock t0); File.closed := false |} ->
  let r := received_message clock m s in
  (same_date (clock (ticks s)) (clock t0) <-> fst r = Py.Ok tt) /\
  (~ same_date (clock (ticks s)) (clock t0) <-> fst r = Py.Raise Py.TypeError).
Proof.
  intros V0 V W H F. cbv zeta.
  destruct (received_message_by_date clock dd ws host t0 m s V0 V W H F) as [A B].
  assert (Dec : Decision (same_date (clock (ticks s)) (clock t0)))
    by (unfold same_date; apply _).
  destruct Dec as [SD|ND].
  - specialize (A SD). split; split; try tauto.
    rewrite A. discriminate.
  - specialize (B ND). split; split; try tauto.
    rewrite B. discriminate.
Qed.

Lemma append_iff_same_date_witness :
  let s := scenario clock_two_days 100 ∅ in
  same_date (clock_two_days (ticks s)) (clock_two_days 0) /\
  fst (received_message clock_two_days "a" s) = Py.Ok tt.
Proof.
  cbv zeta.
  assert (V0 : Datetime.four_digit (clock_two_days 0)) by (vm_compute; repeat split; discriminate).
  assert (V : Datetime.four_digit (clock_two_days (ticks (scenario clock_two_days 100 ∅))))
    by (vm_compute; repeat split; discriminate).
  assert (D : same_date (clock_two_days (ticks (scenario clock_two_days 100 ∅)))
                (clock_two_days 0)) by (vm_compute; repeat split).
  split; [exact D|].
  apply (append_iff_same_date clock_two_days "/tmp/rec" "feedA" "hostX" 0%nat "a" _ V0 V
           eq_refl eq_refl); [rewrite init_eq; reflexivity|exact D].
Defined.

Lemma deliver_until_date_change clock dd ws host t0 msgs :
  Datetime.four_digit (clock t0) ->
  Py.count_char Py.slash ws = 0%nat -> Py.count_char Py.slash host = 0%nat ->
  forall s j,
    data_file (self s)
    = {| File.name := filename_for dd ws host (clock t0); File.closed := false |} ->
    (j <= length msgs)%nat ->
    (forall k, (k < j)%nat ->
       Datetime.four_digit (clock (ticks s + k)%nat) /\
       same_date (clock (ticks s + k)%nat) (clock t0)) ->
    ((j < length msgs)%nat ->
       Datetime.four_digit (clock (ticks s + j)%nat) /\
       ~ same_date (clock (ticks s + j)%nat) (clock t0)) ->
    length (records clock msgs s) = j /\
    fst (deliver clock msgs s)
    = if decide (j = length msgs) then Py.Ok tt else Py.Raise Py.TypeError.
Proof.
  intros V0 W H. induction msgs as [|m msgs IH]; intros s j F Hj Hk Hn.
  - simpl in Hj. assert (j = 0%nat) as -> by lia. split; reflexivity.
  - rewrite deliver_cons. cbn [records length].
    destruct j as [|j].
    + destruct (Hn ltac:(simpl; lia)) as [V D]. rewrite Nat.add_0_r in V, D.
      destruct (received_message_by_date clock dd ws host t0 m s V0 V W H F) as [_ E].
      specialize (E D).
      destruct (received_message clock m s) as [[x|e] s']; cbn [fst] in E;
        [discriminate E|].
      injection E as ->. split; reflexivity.
    + destruct (Hk 0%nat ltac:(lia)) as [V D]. rewrite Nat.add_0_r in V, D.
      destruct (received_message_by_date clock dd ws host t0 m s V0 V W H F) as [E _].
      specialize (E D).
      destruct (received_message clock m s) as [[x|e] s'] eqn:R; cbn [fst] in E;
        [|discriminate E].
      pose proof (live_step _ _ _ _ _ R) as [_ F'].
      apply received_message_ok_fields in R as (T & _).
      destruct (IH s' j) as [L Q].
      * rewrite F'. exact F.
      * simpl in Hj. lia.
      * intros k Hlt. rewrite T.
        replace (S (ticks s) + k)%nat with (ticks s + S k)%nat by lia.
        apply Hk. lia.
      * intros Hlt. rewrite T.
        replace (S (ticks s) + j)%nat with (ticks s + S j)%nat by lia.
        apply Hn. simpl. lia.
      * split; [simpl; rewrite L; reflexivity|]. rewrite Q.
        destruct (decide (j = length msgs)), (decide (S j = S (length msgs)));
          try reflexivity; lia.
Qed.

(** X6. In a session with no slash in [ws_name] and [hostname] and clock
    readings of year 1000 or later, if the readings of the first [j] events
    fall on the date of construction and the reading of the next event, if
    there is one, on another date, then exactly the first [j] events are
    recorded; the session returns when every event was recorded and ends
    with [TypeError] at the change of date otherwise. *)
Theorem session_records_until_date_change clock pid dd u imo dfl host ws hb extra disk0 t0
    msgs j :
  Datetime.four_digit (clock t0) ->
  Py.count_char Py.slash ws = 0%nat -> Py.count_char Py.slash host = 0%nat ->
  (j <= length msgs)%nat ->
  (forall k, (k < j)%nat ->
     Datetime.four_digit (clock (S (S t0) + k)%nat) /\
     same_date (clock (S (S t0) + k)%nat) (clock t0)) ->
  ((j < length msgs)%nat ->
     Datetime.four_digit (clock (S (S t0) + j)%nat) /\
     ~ same_date (clock (S (S t0) + j)%nat) (clock t0)) ->
  let s0 := snd (__init__ clock pid dd u imo dfl host ws hb extra (boot disk0 t0)) in
  length (records clock msgs s0) = j /\
  fst (deliver clock msgs s0)
  = if decide (j = length msgs) then Py.Ok tt else Py.Raise Py.TypeError.
Proof.
  intros V0 W H Hj Hk Hn. cbv zeta.
  apply (deliver_until_date_change clock dd ws host t0 msgs V0 W H); try assumption;
    rewrite init_eq; cbn [snd self data_file ticks]; try assumption. reflexivity.
Qed.

Lemma session_records_until_date_change_witness :
  length (records clock_two_days three_events (scenario clock_two_days 100 ∅)) = 2%nat /\
  fst (deliver clock_two_days three_events (scenario clock_two_days 100 ∅))
  = Py.Raise Py.TypeError.
Proof.
  assert (V0 : Datetime.four_digit (clock_two_days 0)) by (vm_compute; repeat split; discriminate).
  assert (Hj : (2 <= length three_events)%nat) by (simpl; lia).
  assert (Hk : forall k, (k < 2)%nat ->
                 Datetime.four_digit (clock_two_days (2 + k)%nat) /\
                 same_date (clock_two_days (2 + k)%nat) (clock_two_days 0)).
  { intros [|[|k]] Hlt; [| |lia]; split; vm_compute; repeat split; discriminate. }
  assert (Hn : (2 < length three_events)%nat ->
                 Datetime.four_digit (clock_two_days (2 + 2)%nat) /\
                 ~ same_date (clock_two_days (2 + 2)%nat) (clock_two_days 0)).
  { intros _. split; [vm_compute; repeat split; discriminate|].
    intros (_ & _ & D). vm_compute in D. discriminate D. }
  exact (session_records_until_date_change clock_two_days 4242 "/tmp/rec"
           "wss://feed.example/ws" ["subscribe"] 100 "hostX" "feedA" 30 ∅ ∅ 0%nat
           three_events 2%nat V0 eq_refl eq_refl Hj Hk Hn).
Defined.

(** X7. For recorders with the same [data_dir], [ws_name] and [hostname],
    and clock readings within the ranges of a [datetime], two calls of
    [generate_filename] return the same path exactly when their readings
    fall on the same calendar date: the files of different days never
    share a name. *)
Theorem generate_filename_injective clock s1 s2 :
  Datetime.valid (clock (ticks s1)) -> Datetime.valid (clock (ticks s2)) ->
  data_dir (self s1) = data_dir (self s2) -> ws_name (self s1) = ws_name (self s2) ->
  hostname (self s1) = hostname (self s2) ->
  (fst (generate_filename clock s1) = fst (generate_filename clock s2)
   <-> same_date (clock (ticks s1)) (clock (ticks s2))).
Proof.
  intros V1 V2 D W H. rewrite !generate_filename_eq. cbn [fst].
  rewrite D, W, H. unfold filename_for. split.
  - intros E. injection E as E. apply String.app_inj in E.
    change ("/" +:+ ?t) with (String "/" t) in E. injection E as E.
    apply (date_part_inv _ _ _ _ V1 V2) in E as [E _]. exact E.
  - intros S. apply (date_part_same_date _ _ V1 V2) in S. rewrite S. reflexivity.
Qed.

Lemma generate_filename_injective_witness :
  let s1 := boot ∅ 3 in
  let s2 := boot ∅ 4 in
  Datetime.valid (clock_two_days 3) /\ Datetime.valid (clock_two_days 4) /\
  ~ same_date (clock_two_days 3) (clock_two_days 4) /\
  fst (generate_filename clock_two_days s1) <> fst (generate_filename clock_two_days s2).
Proof.
  cbv zeta.
  assert (V1 : Datetime.valid (clock_two_days 3)) by (vm_compute; repeat split; discriminate).
  assert (V2 : Datetime.valid (clock_two_days 4)) by (vm_compute; repeat split; discriminate).
  assert (N : ~ same_date (clock_two_days 3) (clock_two_days 4)).
  { intros (_ & _ & D). vm_compute in D. discriminate D. }
  split; [exact V1|]. split; [exact V2|]. split; [exact N|].
  intros E. apply N.
  apply (generate_filename_injective clock_two_days (boot ∅ 3) (boot ∅ 4) V1 V2
           eq_refl eq_refl eq_refl). exact E.
Defined.

(** ** The layout of a line *)

Lemma builtin_record_layout u host ws pid start n ts p :
  Json.dumps_dict (record (builtin_fields u host ws pid start) n ts p)
  = "{" +:+ Json.encode_str "machine_id" +:+ ": " +:+ Json.encode_str host +:+ ", "
        +:+ Json.encode_str "msg_seq_no" +:+ ": " +:+ Py.str_of_int n +:+ ", "
        +:+ Json.encode_str "pid" +:+ ": " +:+ Json.encode_str (Py.str_of_int pid) +:+ ", "
        +:+ Json.encode_str "session_start" +:+ ": " +:+ Json.encode_str start +:+ ", "
        +:+ Json.encode_str "ts_utc" +:+ ": " +:+ Json.encode_str ts +:+ ", "
        +:+ Json.encode_str "url" +:+ ": " +:+ Json.encode_str u +:+ ", "
        +:+ Json.encode_str "websocket_msg" +:+ ": " +:+ Json.encode_str p +:+ ", "
        +:+ Json.encode_str "ws_name" +:+ ": " +:+ Json.encode_str ws +:+ "}".
Proof.
  unfold Json.dumps_dict.
  assert (E : Json.sort_items (map_to_list (record (builtin_fields u host ws pid start) n ts p))
              = [("machine_id", Json.Str host); ("msg_seq_no", Json.Int n);
                 ("pid", Json.Str (Py.str_of_int pid)); ("session_start", Json.Str start);
                 ("ts_utc", Json.Str ts); ("url", Json.Str u);
                 ("websocket_msg", Json.Str p); ("ws_name", Json.Str ws)]).
  { vm_compute. reflexivity. }
  rewrite dumps_Dict_sorted, E. cbn [map dumps_item fst snd String.concat Json.item].
  change (Json.dumps (Json.Str ?s)) with (Json.encode_str s).
  change (Json.dumps (Json.Int ?z)) with (Py.str_of_int z).
  rewrite !str_app_assoc. reflexivity.
Qed.

(** X8. Without extra data every line of a session is the eight items in
    this order: [machine_id], [msg_seq_no], [pid], [session_start],
    [ts_utc], [url], [websocket_msg], [ws_name], between braces, separated by
    a comma and a space, each key followed by a colon and a space, the
    sequence number a bare integer and the other values quoted strings. *)
Theorem record_line_layout clock pid dd u imo dfl host ws hb disk0 t0 msgs k d :
  let s0 := snd (__init__ clock pid dd u imo dfl host ws hb ∅ (boot disk0 t0)) in
  records clock msgs s0 !! k = Some d ->
  exists m, msgs !! k = Some m /\
    line_of d
    = ("{" +:+ Json.encode_str "machine_id" +:+ ": " +:+ Json.encode_str host +:+ ", "
           +:+ Json.encode_str "msg_seq_no" +:+ ": " +:+ Py.str_of_int (Z.of_nat k + 1) +:+ ", "
           +:+ Json.encode_str "pid" +:+ ": " +:+ Json.encode_str (Py.str_of_int pid) +:+ ", "
           +:+ Json.encode_str "session_start" +:+ ": "
           +:+ Json.encode_str (Datetime.strftime ts_format (clock (S t0))) +:+ ", "
           +:+ Json.encode_str "ts_utc" +:+ ": "
           +:+ Json.encode_str (Datetime.strftime ts_format (clock (S (S t0) + k)%nat)) +:+ ", "
           +:+ Json.encode_str "url" +:+ ": " +:+ Json.encode_str u +:+ ", "
           +:+ Json.encode_str "websocket_msg" +:+ ": "
           +:+ Json.encode_str (remove_char Py.newline m) +:+ ", "
           +:+ Json.encode_str "ws_name" +:+ ": " +:+ Json.encode_str ws +:+ "}")
        +:+ String Py.newline EmptyString.
Proof.
  cbv zeta. intros H. apply records_lookup in H as (m & Hm & ->).
  exists m. split; [exact Hm|].
  rewrite init_eq. cbn [snd self full_message msg_seq_no ticks].
  rewrite (left_id_L ∅ (∪)). unfold line_of. rewrite builtin_record_layout.
  replace (0 + 1 + Z.of_nat k) with (Z.of_nat k + 1) by lia. reflexivity.
Qed.

Lemma record_line_layout_witness :
  exists d m,
    records clock_one_day three_events (scenario clock_one_day 100 ∅) !! 1%nat = Some d /\
    three_events !! 1%nat = Some m /\
    Py.count_char Json.dquote (line_of d) = 30%nat.
Proof.
  destruct (records clock_one_day three_events (scenario clock_one_day 100 ∅) !! 1%nat)
    as [d|] eqn:E; [|vm_compute in E; discriminate E].
  destruct (record_line_layout clock_one_day 4242 "/tmp/rec" "wss://feed.example/ws"
              ["subscribe"] 100 "hostX" "feedA" 30 ∅ 0%nat three_events 1%nat d E)
    as (m & Hm & L).
  exists d, m. split; [reflexivity|]. split; [exact Hm|].
  rewrite L. simpl in Hm. injection Hm as <-. vm_compute. reflexivity.
Defined.

(** ** Reading the file back *)

Lemma split_lines_line l rest :
  Py.count_char Py.newline l = 0%nat ->
  split_lines (l +:+ String Py.newline rest) = l :: split_lines rest.
Proof.
  induction l as [|c l IH]; intros H.
  - rewrite str_app_nil_l. reflexivity.
  - rewrite str_app_cons. simpl in H. cbn [split_lines].
    destruct (Ascii.eqb c Py.newline); [discriminate H|].
    rewrite IH by exact H. reflexivity.
Qed.

Lemma split_lines_records (rs : list (gmap string Json.value)) :
  split_lines (concat_lines (map line_of rs)) = map Json.dumps_dict rs.
Proof.
  induction rs as [|d rs IH]; [reflexivity|].
  cbn [map concat_lines]. unfold line_of at 1. rewrite str_app_assoc, str_app_cons, str_app_nil_l.
  rewrite split_lines_line by apply dumps_no_newline. rewrite IH. reflexivity.
Qed.

Lemma count_newlines_records (rs : list (gmap string Json.value)) :
  Py.count_char Py.newline (concat_lines (map line_of rs)) = length rs.
Proof.
  induction rs as [|d rs IH]; [reflexivity|].
  cbn [map concat_lines length]. rewrite count_char_app, IH.
  destruct (line_of_newlines d) as [_ ->]. reflexivity.
Qed.

(** A serialised value decodes without a line terminator as well. *)
Lemma loads_dumps_bare v :
  well_formed v -> Decoder.loads (Json.dumps v) = Some (canonical v).
Proof.
  intros W. unfold Decoder.loads.
  rewrite <- (str_app_nil_r (Json.dumps v)) at 2. rewrite skip_ws_dumps.
  rewrite (decodes_well_formed v W); [reflexivity|apply cost_le_length|exact I].
Qed.

Lemma assoc_elem key v d :
  NoDup (map fst d) -> (key, v) ∈ d -> assoc key d = Some v.
Proof.
  induction d as [|kv d IH]; intros N H; [apply elem_of_nil in H; contradiction|].
  simpl in N. apply NoDup_cons in N as [N1 N2].
  cbn [assoc]. apply elem_of_cons in H as [<-|H].
  - cbn [fst snd]. destruct (decide (key = key)); [reflexivity|contradiction].
  - destruct (decide (fst kv = key)) as [E|E]; [|apply IH; assumption].
    exfalso. apply N1. rewrite E.
    apply (list_elem_of_fmap_2 fst) in H. exact H.
Qed.

(** An item of a record is an item of the decoded line. *)
Lemma dict_get_canonical (r : gmap string Json.value) key v :
  r !! key = Some v ->
  dict_get key (canonical (Json.Dict (map_to_list r))) = Some (canonical v).
Proof.
  intros H. rewrite canonical_Dict. cbn [dict_get]. apply assoc_elem.
  - rewrite map_map. cbn [canonical_item fst].
    apply sort_items_nodup, NoDup_fst_map_to_list.
  - apply (list_elem_of_fmap_2 canonical_item (Json.sort_items (map_to_list r)) (key, v)).
    rewrite sort_items_perm. apply elem_of_map_to_list. exact H.
Qed.

(** X9. After a session on a file that did not exist, with well-formed
    extra data, reading the file line by line gives one line per record, in
    order; the [k]-th line (from 0) decodes to a dict whose [msg_seq_no] is
    [k + 1] and whose [websocket_msg] is the text of the [k]-th event
    without its newlines. *)
Theorem file_reads_back clock pid dd u imo dfl host ws hb extra disk0 t0 msgs :
  map_Forall (fun _ v => well_formed v) extra ->
  disk0 !! filename_for dd ws host (clock t0) = None ->
  let s0 := snd (__init__ clock pid dd u imo dfl host ws hb extra (boot disk0 t0)) in
  let rs := records clock msgs s0 in
  exists text,
    disk (snd (deliver clock msgs s0)) !! filename_for dd ws host (clock t0) = Some text /\
    length (split_lines text) = length rs /\
    Py.count_char Py.newline text = length rs /\
    forall k l, split_lines text !! k = Some l ->
      exists v m,
        Decoder.loads l = Some v /\ msgs !! k = Some m /\
        dict_get "msg_seq_no" v = Some (Json.Int (Z.of_nat k + 1)) /\
        dict_get "websocket_msg" v = Some (Json.Str (remove_char Py.newline m)).
Proof.
  intros W F. cbv zeta.
  rewrite session_disk. cbv zeta. rewrite lookup_insert_eq, F. cbn [default].
  rewrite str_app_nil_l. eexists. split; [reflexivity|].
  rewrite split_lines_records, !length_map. split; [reflexivity|]. split.
  - apply count_newlines_records.
  - intros k l H. apply list_lookup_fmap_Some in H as (d & -> & H).
    apply records_lookup in H as (m & Hm & ->).
    rewrite init_eq. cbn [snd self full_message msg_seq_no ticks].
    set (r := record _ _ _ _).
    assert (Wr : well_formed (Json.Dict (map_to_list r))).
    { apply well_formed_dict, well_formed_record, well_formed_template, W. }
    exists (canonical (Json.Dict (map_to_list r))), m.
    split; [apply (loads_dumps_bare _ Wr)|]. split; [exact Hm|].
    rewrite (dict_get_canonical r "msg_seq_no" (Json.Int (0 + 1 + Z.of_nat k)))
      by apply record_msg_seq_no.
    rewrite (dict_get_canonical r "websocket_msg" (Json.Str (remove_char Py.newline m)))
      by apply record_websocket_msg.
    split; [cbn [canonical]; do 2 f_equal; lia|reflexivity].
Qed.

Lemma file_reads_back_witness :
  map_Forall (fun _ v => well_formed v) (∅ : gmap string Json.value) /\
  exists text,
    disk (snd (deliver clock_one_day three_events (scenario clock_one_day 100 ∅)))
      !! "/tmp/rec/2024-01-01_feedA_hostX.json.open" = Some text /\
    length (split_lines text) = 3%nat.
Proof.
  assert (W : map_Forall (fun _ v => well_formed v) (∅ : gmap string Json.value))
    by apply map_Forall_empty.
  split; [exact W|].
  destruct (file_reads_back clock_one_day 4242 "/tmp/rec" "wss://feed.example/ws"
              ["subscribe"] 100 "hostX" "feedA" 30 ∅ ∅ 0%nat three_events W
              (lookup_empty _))
    as (text & D & L & _).
  exists text. split.
  - rewrite <- D. f_equal.
  - rewrite L. vm_compute. reflexivity.
Defined.

(** ** The characters of a line *)

Lemma all_chars_impl (P Q : ascii -> bool) s :
  (forall c, P c = true -> Q c = true) -> all_chars P s = true -> all_chars Q s = true.
Proof.
  intros I. induction s as [|c s IH]; [reflexivity|]. simpl.
  intros [Hc Hs]%andb_prop. rewrite (I c Hc), (IH Hs). reflexivity.
Qed.

Lemma is_digit_printable c : is_digit c = true -> is_printable c = true.
Proof. destruct c as [[] [] [] [] [] [] [] []]; intros H; try discriminate H; reflexivity. Qed.

Lemma str_of_int_printable z : all_chars is_printable (Py.str_of_int z) = true.
Proof.
  assert (H : forall n, all_chars is_printable (Py.str_of_N n) = true).
  { intros n. apply (all_chars_impl is_digit); [apply is_digit_printable|apply str_of_N_digits]. }
  destruct z; unfold Py.str_of_int; [reflexivity|apply H|]. simpl. apply H.
Qed.

Lemma escape_char_printable c : all_chars is_printable (Json.escape_char c) = true.
Proof. destruct c as [[] [] [] [] [] [] [] []]; reflexivity. Qed.

Lemma encode_str_printable s : all_chars is_printable (Json.encode_str s) = true.
Proof.
  unfold Json.encode_str. simpl. rewrite all_chars_app. simpl. rewrite andb_true_r.
  induction s as [|c s IH]; [reflexivity|].
  cbn [Json.escape]. rewrite all_chars_app, escape_char_printable, IH. reflexivity.
Qed.

Lemma concat_printable sep l :
  all_chars is_printable sep = true ->
  Forall (fun s => all_chars is_printable s = true) l ->
  all_chars is_printable (String.concat sep l) = true.
Proof.
  intros Hsep H. induction H as [|x l Hx Hl IH]; [reflexivity|].
  simpl. destruct l as [|y l]; [exact Hx|].
  rewrite !all_chars_app, Hx, Hsep, IH. reflexivity.
Qed.

(** The output of [json.dumps] is printable ASCII ([ensure_ascii]). *)
Lemma dumps_printable v : all_chars is_printable (Json.dumps v) = true.
Proof.
  induction v as [| [] | z | s | l IH | d IH] using value_induction;
    try reflexivity.
  - apply str_of_int_printable.
  - apply encode_str_printable.
  - rewrite dumps_List, !all_chars_app.
    rewrite concat_printable; [reflexivity|reflexivity|].
    apply Forall_map. exact IH.
  - rewrite dumps_Dict, !all_chars_app.
    rewrite concat_printable; [reflexivity|reflexivity|].
    apply Forall_map. apply Forall_sort_items. apply Forall_map.
    eapply Forall_impl; [exact IH|]. intros [k v] H. cbn [fst snd] in *.
    unfold Json.item. cbn [fst snd].
    rewrite !all_chars_app, encode_str_printable, H. reflexivity.
Qed.

(** X10. Whatever the payload and the extra data hold (control characters,
    quotes, code points above 126), every line a call writes is printable
    ASCII, space to tilde, followed by the newline. *)
Theorem written_line_printable clock m s msgs :
  let r := received_message clock m s in
  (fst r = Py.Ok tt ->
   exists body,
     disk (snd r)
     = <[File.name (data_file (self s)) :=
           content s +:+ body +:+ String Py.newline EmptyString]> (disk s) /\
     all_chars is_printable body = true) /\
  Forall (fun d => exists body,
            line_of d = body +:+ String Py.newline EmptyString /\
            all_chars is_printable body = true)
    (records clock msgs s).
Proof.
  cbv zeta. split.
  - intros H. destruct (received_message clock m s) as [[[]|e] s'] eqn:E; [|discriminate].
    exists (Json.dumps_dict (full_message (self s'))). cbn [snd].
    split; [|apply dumps_printable].
    apply received_message_ok in E as (_ & _ & ->). reflexivity.
  - apply Forall_forall. intros d _. exists (Json.dumps_dict d).
    split; [reflexivity|apply dumps_printable].
Qed.

(** ** The timestamp *)

Lemma time_part_eq d :
  Datetime.strftime " %H:%M:%S.%f UTC" d
  = " " +:+ Datetime.zfill 2 (Datetime.hour d) +:+ ":" +:+ Datetime.zfill 2 (Datetime.minute d)
      +:+ ":" +:+ Datetime.zfill 2 (Datetime.second d)
      +:+ "." +:+ Datetime.zfill 6 (Datetime.microsecond d) +:+ " UTC".
Proof.
  cbv beta iota delta [Datetime.strftime Ascii.eqb Datetime.percent Bool.eqb Datetime.directive].
  repeat (rewrite str_app_assoc || rewrite str_app_cons || rewrite str_app_nil_l).
  reflexivity.
Qed.

Lemma ts_utc_length d :
  Datetime.four_digit d -> String.length (Datetime.strftime ts_format d) = 30%nat.
Proof.
  intros V. pose proof V as [(_ & _ & _ & Hh & Hm & Hs & Hu) _].
  rewrite ts_utc_split, str_length_app, (date_part_length d V), time_part_eq.
  rewrite !str_length_app, !zfill_length by (simpl; lia). reflexivity.
Qed.

Lemma ts_utc_injective d1 d2 :
  Datetime.valid d1 -> Datetime.valid d2 ->
  Datetime.strftime ts_format d1 = Datetime.strftime ts_format d2 -> d1 = d2.
Proof.
  intros V1 V2 H. rewrite !ts_utc_split in H.
  apply (date_part_inv d1 d2 _ _ V1 V2) in H as [(Y & Mo & Da) T].
  destruct V1 as (_ & _ & _ & Hh1 & Hm1 & Hs1 & Hu1).
  destruct V2 as (_ & _ & _ & Hh2 & Hm2 & Hs2 & Hu2).
  rewrite !time_part_eq in T.
  change (" " +:+ ?t) with (String " " t) in T. injection T as T.
  apply str_app_inv in T as [Ho T]; [|rewrite !zfill_length by (simpl; lia); reflexivity].
  change (":" +:+ ?t) with (String ":" t) in T. injection T as T.
  apply str_app_inv in T as [Mi T]; [|rewrite !zfill_length by (simpl; lia); reflexivity].
  change (":" +:+ ?t) with (String ":" t) in T. injection T as T.
  apply str_app_inv in T as [Se T]; [|rewrite !zfill_length by (simpl; lia); reflexivity].
  change ("." +:+ ?t) with (String "." t) in T. injection T as T.
  apply str_app_inv in T as [Us _]; [|rewrite !zfill_length by (simpl; lia); reflexivity].
  apply (f_equal (digits_value 0)) in Ho, Mi, Se, Us. rewrite !zfill_value in Ho, Mi, Se, Us.
  destruct d1, d2. simpl in *. congruence.
Qed.

(** X11. With clock readings in the ranges of a Python datetime, the
    [ts_utc] of a record stamped in year 1000 or later is a string of 30
    characters, and it is the clock reading of its call and of no other:
    two records of a session carry the same timestamp only if their calls
    read the same time. *)
Theorem ts_utc_identifies_reading clock msgs s i j di dj ts :
  Datetime.four_digit (clock (ticks s + i)%nat) -> Datetime.valid (clock (ticks s + j)%nat) ->
  records clock msgs s !! i = Some di -> records clock msgs s !! j = Some dj ->
  di !! "ts_utc" = Some (Json.Str ts) ->
  String.length ts = 30%nat /\
  ts = Datetime.strftime ts_format (clock (ticks s + i)%nat) /\
  (dj !! "ts_utc" = Some (Json.Str ts) -> clock (ticks s + i)%nat = clock (ticks s + j)%nat).
Proof.
  intros Vi Vj Hi Hj T.
  apply records_lookup in Hi as (mi & _ & ->). apply records_lookup in Hj as (mj & _ & ->).
  rewrite record_ts_utc in T. injection T as <-.
  split; [apply ts_utc_length, Vi|]. split; [reflexivity|].
  rewrite record_ts_utc. intros E. injection E as E.
  symmetry. apply ts_utc_injective; [exact Vj|apply Vi|auto].
Qed.

Lemma ts_utc_identifies_reading_witness :
  exists di ts,
    records clock_one_day three_events (scenario clock_one_day 100 ∅) !! 0%nat = Some di /\
    di !! "ts_utc" = Some (Json.Str ts) /\
    String.length ts = 30%nat /\
    ts = "2024-01-01 10:00:00.000002 UTC".
Proof.
  destruct (records clock_one_day three_events (scenario clock_one_day 100 ∅) !! 0%nat)
    as [di|] eqn:Ei; [|vm_compute in Ei; discriminate Ei].
  destruct (records clock_one_day three_events (scenario clock_one_day 100 ∅) !! 1%nat)
    as [dj|] eqn:Ej; [|vm_compute in Ej; discriminate Ej].
  assert (T : di !! "ts_utc" = Some (Json.Str "2024-01-01 10:00:00.000002 UTC")).
  { apply records_lookup in Ei as (m & _ & ->). rewrite record_ts_utc.
    vm_compute. reflexivity. }
  assert (Vi : Datetime.four_digit
                 (clock_one_day (ticks (scenario clock_one_day 100 ∅) + 0)%nat))
    by (vm_compute; repeat split; discriminate).
  assert (Vj : Datetime.valid (clock_one_day (ticks (scenario clock_one_day 100 ∅) + 1)%nat))
    by (vm_compute; repeat split; discriminate).
  destruct (ts_utc_identifies_reading clock_one_day three_events
              (scenario clock_one_day 100 ∅) 0%nat 1%nat di dj _ Vi Vj Ei Ej T)
    as (L & _ & _).
  exists di, "2024-01-01 10:00:00.000002 UTC". auto.
Defined.

(** ** Events in batches *)

Lemma deliver_app clock l1 l2 s :
  deliver clock (l1 ++ l2) s
  = match deliver clock l1 s with
    | (Py.Ok _, s1) => deliver clock l2 s1
    | (Py.Raise e, s1) => (Py.Raise e, s1)
    end.
Proof.
  revert s. induction l1 as [|m l1 IH]; intros s.
  - reflexivity.
  - cbn [app]. rewrite !deliver_cons.
    destruct (received_message clock m s) as [[[]|e] s1]; [apply IH|reflexivity].
Qed.

Lemma records_app clock l1 l2 s :
  records clock (l1 ++ l2) s
  = records clock l1 s ++
    match deliver clock l1 s with
    | (Py.Ok _, s1) => records clock l2 s1
    | (Py.Raise _, _) => []
    end.
Proof.
  revert s. induction l1 as [|m l1 IH]; intros s.
  - reflexivity.
  - cbn [app records]. rewrite deliver_cons.
    destruct (received_message clock m s) as [[[]|e] s1]; [|reflexivity].
    cbn [app]. rewrite IH. reflexivity.
Qed.

Lemma extends_refl d : extends d d.
Proof. intros p old H. exists EmptyString. rewrite str_app_nil_r. exact H. Qed.

Lemma extends_trans d1 d2 d3 : extends d1 d2 -> extends d2 d3 -> extends d1 d3.
Proof.
  intros H12 H23 p old H. destruct (H12 p old H) as [x Hx].
  destruct (H23 p _ Hx) as [y Hy]. exists (x +:+ y). rewrite <- str_app_assoc. exact Hy.
Qed.

Lemma received_message_extends clock m s :
  extends (disk s) (disk (snd (received_message clock m s))).
Proof.
  destruct (received_message clock m s) as [[u|e] s'] eqn:E; cbn [snd].
  - apply received_message_ok in E as (_ & _ & ->). cbn [disk].
    intros p old H. destruct (decide (p = File.name (data_file (self s)))) as [->|N].
    + rewrite lookup_insert_eq. unfold content. rewrite H. eauto.
    + rewrite lookup_insert_ne by congruence. exists EmptyString.
      rewrite str_app_nil_r. exact H.
  - apply received_message_raise in E as (-> & _). apply extends_refl.
Qed.

Lemma deliver_extends clock msgs s : extends (disk s) (disk (snd (deliver clock msgs s))).
Proof.
  revert s. induction msgs as [|m msgs IH]; intros s; [apply extends_refl|].
  rewrite deliver_cons. pose proof (received_message_extends clock m s) as H.
  destruct (received_message clock m s) as [[u|e] s']; cbn [snd] in *.
  - eapply extends_trans; [exact H|apply IH].
  - exact H.
Qed.

(** X12. No handler deletes, truncates or rewrites: after [opened],
    [closed], a call of [received_message] or a whole run, every file that
    was on the disk is still there and its former content is the start of
    its content. Events handed over in two batches give what one run over
    all of them gives. *)
Theorem disk_append_only clock code reason m l1 l2 s :
  extends (disk s) (disk (snd (opened s))) /\
  extends (disk s) (disk (snd (closed code reason s))) /\
  extends (disk s) (disk (snd (received_message clock m s))) /\
  extends (disk s) (disk (snd (deliver clock l1 s))) /\
  extends (disk (snd (deliver clock l1 s))) (disk (snd (deliver clock (l1 ++ l2) s))) /\
  deliver clock (l1 ++ l2) s = (deliver clock l1 ;; deliver clock l2) s /\
  (fst (deliver clock l1 s) = Py.Ok tt ->
   records clock (l1 ++ l2) s
   = records clock l1 s ++ records clock l2 (snd (deliver clock l1 s))).
Proof.
  split; [|split; [|split; [|split; [|split; [|split]]]]].
  - pose proof (for_each_send (initial_msg_out (self s)) s) as H.
    unfold opened, bind, get_self. destruct (decide _); [rewrite H|]; apply extends_refl.
  - apply extends_refl.
  - apply received_message_extends.
  - apply deliver_extends.
  - rewrite deliver_app. destruct (deliver clock l1 s) as [[[]|e] s1]; cbn [snd].
    + apply deliver_extends.
    + apply extends_refl.
  - rewrite deliver_app. unfold bind. reflexivity.
  - intros H. rewrite records_app. destruct (deliver clock l1 s) as [[[]|e] s1]; [|discriminate H].
    reflexivity.
Qed.
